(** * STFT: framing, decibel grids, CSV layout and the ctypes wrapper

    A shallow embedding of [examples/stft_ctypes.py] (the ctypes wrapper
    around the C engine [libstft.so]) and of [examples/generate_scipy_stft.py]
    (the scipy reference run), together with the parts of the engine that the
    repository's documentation describes.

    Conventions.
    - Python integers and C [int]s are [Z]; a C [int] field is stored through
      its 32-bit two's-complement wrap.
    - Floating-point quantities that take part in arithmetic are idealised:
      metadata ratios are exact rationals ([Q]) and spectral values are real
      numbers ([R]); rounding is not modelled.
    - Python [bytes] are [list byte]; a Python [str] is the [string] holding
      its UTF-8 encoding.
    - A Python [dict] is a [gmap string _]; the objects a caller can alias
      (numpy arrays) live in a store [gmap loc ndarray]. *)

From Stdlib Require Import ZArith List Lia Bool.
From Stdlib Require Import QArith Qround Qabs.
From Stdlib Require Import Reals Lra.
From Stdlib Require Import Strings.String Strings.Ascii Strings.Byte.
From stdpp Require Import gmap strings list.

(** ** Framing *)

Module Framer.

Local Open Scope Z_scope.

(** Modelled from the spec: the engine's Framer lives in the C library, which
    is not among the sources.  Its contract: the ordered sequence of frame
    start offsets 0, H, 2H, ... restricted to the offsets with
    [start + W <= L].  Candidates past [L] can never fit, so [k <= L] is
    enough to enumerate. *)
Definition frame_offsets (L W H : Z) : list Z :=
  List.filter (fun start => start + W <=? L)
              (List.map (fun k => Z.of_nat k * H) (seq 0 (Z.to_nat L + 1))).

(** The closed form the documentation gives for the number of frames. *)
Definition frame_count_formula (L W H : Z) : Z :=
  if W <=? L then Z.max 0 ((L - W) / H + 1) else 0.

Definition frame_count (L W H : Z) : Z :=
  Z.of_nat (length (frame_offsets L W H)).

(** Modelled from the spec: half-spectrum size for real input. *)
Definition frequency_bin_count (W : Z) : Z := W / 2 + 1.

(** Modelled from the spec: metadata of a Result (frame time step and
    frequency resolution), as exact rationals. *)
Definition frame_time_step (H : Z) (sample_rate : Q) : Q :=
  (inject_Z H / sample_rate)%Q.

Definition frequency_resolution (W : Z) (sample_rate : Q) : Q :=
  (sample_rate / inject_Z W)%Q.

(** [len(np.arange(start, stop, step))] is [ceil((stop - start) / step)],
    never negative (stft_ctypes.py, line 172; generate_scipy_stft.py, line 6). *)
Definition arange_len (start stop step : Q) : Z :=
  Z.max 0 (Qceiling ((stop - start) / step)).

(** *** Auxiliary facts on filtering an initial segment *)

Lemma filter_prefix_all {A} (p : A -> bool) (l : list A) :
  (forall x, In x l -> p x = true) -> List.filter p l = l.
Proof.
  induction l as [|a l IH]; simpl; intros Hall; [reflexivity|].
  rewrite (Hall a (or_introl eq_refl)). f_equal. apply IH.
  intros x Hx. apply Hall. now right.
Qed.

Lemma filter_suffix_none {A} (p : A -> bool) (l : list A) :
  (forall x, In x l -> p x = false) -> List.filter p l = [].
Proof.
  induction l as [|a l IH]; simpl; intros Hall; [reflexivity|].
  rewrite (Hall a (or_introl eq_refl)). apply IH.
  intros x Hx. apply Hall. now right.
Qed.

(** A predicate that holds exactly below a threshold [c] keeps exactly the
    first [c] candidates. *)
Lemma filter_threshold (f : nat -> Z) (p : Z -> bool) (c n : nat) :
  (c <= n)%nat ->
  (forall k, (k < n)%nat -> p (f k) = true <-> (k < c)%nat) ->
  List.filter p (List.map f (seq 0 n)) = List.map f (seq 0 c).
Proof.
  intros Hcn Hp.
  replace n with (c + (n - c))%nat by lia.
  rewrite seq_app, List.map_app, List.filter_app.
  rewrite filter_prefix_all, filter_suffix_none.
  - apply app_nil_r.
  - intros x Hx. apply in_map_iff in Hx as (k & <- & Hk).
    apply in_seq in Hk.
    destruct (p (f k)) eqn:E; [|reflexivity].
    apply Hp in E; lia.
  - intros x Hx. apply in_map_iff in Hx as (k & <- & Hk).
    apply in_seq in Hk. apply Hp; lia.
Qed.

Lemma formula_bounds (L W H : Z) :
  0 < W -> 0 < H -> 0 <= frame_count_formula L W H <= Z.max 0 L + 1.
Proof.
  intros HW HH. unfold frame_count_formula.
  destruct (W <=? L) eqn:E; [|lia].
  apply Z.leb_le in E.
  assert (0 <= (L - W) / H) by (apply Z.div_pos; lia).
  assert ((L - W) / H <= L - W) by (apply Z.div_le_upper_bound; nia).
  lia.
Qed.

Lemma fits_iff_below_formula (L W H : Z) (k : nat) :
  0 < W -> 0 < H ->
  (Z.of_nat k * H + W <=? L) = true <->
  (k < Z.to_nat (frame_count_formula L W H))%nat.
Proof.
  intros HW HH. unfold frame_count_formula.
  rewrite Z.leb_le.
  destruct (W <=? L) eqn:E.
  - apply Z.leb_le in E.
    assert (H0 : 0 <= (L - W) / H) by (apply Z.div_pos; lia).
    rewrite Z.max_r by lia.
    split; intros Hk.
    + assert (Z.of_nat k <= (L - W) / H) by (apply Z.div_le_lower_bound; nia).
      lia.
    + assert (Z.of_nat k <= (L - W) / H) by lia.
      assert (H * ((L - W) / H) <= L - W) by (apply Z.mul_div_le; lia).
      nia.
  - apply Z.leb_gt in E. simpl. split; intros; [nia|lia].
Qed.

(** The Framer emits the first [frame_count_formula] multiples of [H], in
    order. *)
Lemma frame_offsets_closed_form (L W H : Z) :
  0 < W -> 0 < H ->
  frame_offsets L W H =
  List.map (fun k => Z.of_nat k * H)
           (seq 0 (Z.to_nat (frame_count_formula L W H))).
Proof.
  intros HW HH. unfold frame_offsets.
  apply filter_threshold.
  - pose proof (formula_bounds L W H HW HH). lia.
  - intros k _. now apply fits_iff_below_formula.
Qed.

Lemma frame_count_closed_form (L W H : Z) :
  0 < W -> 0 < H -> frame_count L W H = frame_count_formula L W H.
Proof.
  intros HW HH. unfold frame_count.
  rewrite frame_offsets_closed_form by assumption.
  rewrite List.length_map, List.length_seq.
  pose proof (formula_bounds L W H HW HH). lia.
Qed.

(** C1. For positive window and hop sizes the Framer emits exactly the
    offsets 0, H, 2H, ... that satisfy [start + W <= L], in increasing
    order; their number is [max 0 ((L - W) / H + 1)] when [L >= W] and 0
    otherwise; a signal of length [W] gives one frame and a signal of
    length [W - 1] gives none. *)
Theorem framer_offsets_and_count (L W H : Z) :
  0 < W -> 0 < H ->
  (forall s, In s (frame_offsets L W H) <->
             exists k, 0 <= k /\ s = k * H /\ s + W <= L) /\
  frame_offsets L W H =
    List.map (fun k => Z.of_nat k * H) (seq 0 (Z.to_nat (frame_count L W H))) /\
  frame_count L W H = (if W <=? L then Z.max 0 ((L - W) / H + 1) else 0) /\
  frame_count W W H = 1 /\
  frame_count (W - 1) W H = 0.
Proof.
  intros HW HH.
  assert (Hcf : forall L', frame_count L' W H = frame_count_formula L' W H)
    by (intros; now apply frame_count_closed_form).
  repeat split.
  - rewrite frame_offsets_closed_form by assumption.
    intros Hin. apply in_map_iff in Hin as (k & <- & Hk).
    apply in_seq in Hk. exists (Z.of_nat k).
    repeat split; [lia|].
    apply Z.leb_le. apply fits_iff_below_formula; [assumption..|lia].
  - intros (k & Hk & -> & Hfit).
    rewrite frame_offsets_closed_form by assumption.
    apply in_map_iff. exists (Z.to_nat k). split; [f_equal; lia|].
    apply in_seq. split; [lia|]. simpl.
    apply fits_iff_below_formula; [assumption..|].
    apply Z.leb_le. rewrite Z2Nat.id by assumption. exact Hfit.
  - rewrite Hcf. now apply frame_offsets_closed_form.
  - apply Hcf.
  - rewrite Hcf. unfold frame_count_formula.
    rewrite Z.leb_refl, Z.sub_diag, Z.div_0_l by lia. reflexivity.
  - rewrite Hcf. unfold frame_count_formula.
    destruct (W <=? W - 1) eqn:E; [apply Z.leb_le in E; lia|reflexivity].
Qed.

Lemma framer_offsets_and_count_witness :
  frame_offsets 250 62 31 = [0; 31; 62; 93; 124; 155; 186] /\
  frame_count 250 62 31 = 7 /\
  frame_count 62 62 31 = 1 /\
  frame_count 61 62 31 = 0.
Proof.
  destruct (framer_offsets_and_count 250 62 31) as (_ & Ho & Hc & _);
    [lia | lia |].
  destruct (framer_offsets_and_count 62 62 31) as (_ & _ & _ & H1 & _);
    [lia | lia |].
  destruct (framer_offsets_and_count 62 62 31) as (_ & _ & _ & _ & H0);
    [lia | lia |]. simpl in H0.
  split; [|split; [|split]].
  - rewrite Ho, Hc. reflexivity.
  - rewrite Hc. reflexivity.
  - exact H1.
  - exact H0.
Defined.

(** C3. The repository's fixed run: 125 Hz, two seconds of signal (250
    samples), window 62, hop 31.  The Result has 7 frames, 32 frequency
    bins, a frame time step of 0.248 s and a frequency resolution of 125/62,
    which is 2.016 Hz to three decimals. *)
Theorem fixed_configuration_metadata :
  arange_len 0 2 (1 / 125) = 250 /\
  frame_count 250 62 31 = (250 - 62) / 31 + 1 /\
  frame_count 250 62 31 = 7 /\
  frequency_bin_count 62 = 62 / 2 + 1 /\
  frequency_bin_count 62 = 32 /\
  (frame_time_step 31 125 == 31 / 125)%Q /\
  (frame_time_step 31 125 == 0.248)%Q /\
  (frequency_resolution 62 125 == 125 / 62)%Q /\
  (Qabs (frequency_resolution 62 125 - 2.016) < 0.0005)%Q.
Proof. repeat split; vm_compute; reflexivity. Qed.

End Framer.

(** ** Magnitude and decibel grids *)

Module Decibel.

Local Open Scope R_scope.

(** A complex coefficient as its real and imaginary parts. *)
Definition complex : Type := R * R.

(** A two-dimensional numpy array, as the list of its rows. *)
Abbreviation grid A := (list (list A)).

Definition cell {A} (g : grid A) (i j : nat) : option A :=
  g !! i ≫= fun row => row !! j.

Definition grid_map {A B} (f : A -> B) (g : grid A) : grid B :=
  (fun row : list A => f <$> row) <$> g.

(** [np.abs] on a complex number. *)
Definition np_abs (z : complex) : R :=
  sqrt (fst z * fst z + snd z * snd z).

Definition log10 (x : R) : R := ln x / ln 10.

(** The additive floor of generate_scipy_stft.py, line 22. *)
Definition eps : R := 1e-10.

(** [20 * np.log10(m + 1e-10)] on one magnitude. *)
Definition db_of (m : R) : R := 20 * log10 (m + eps).

(** generate_scipy_stft.py, line 21: [magnitude = np.abs(Zxx)]. *)
Definition magnitude (Zxx : grid complex) : grid R := grid_map np_abs Zxx.

(** generate_scipy_stft.py, line 22:
    [db = 20 * np.log10(magnitude + 1e-10)], elementwise. *)
Definition db (Zxx : grid complex) : grid R := grid_map db_of (magnitude Zxx).

Lemma cell_grid_map {A B} (f : A -> B) (g : grid A) (i j : nat) :
  cell (grid_map f g) i j = f <$> cell g i j.
Proof.
  unfold cell, grid_map.
  rewrite list_lookup_fmap.
  destruct (g !! i) as [row|]; simpl; [|reflexivity].
  apply list_lookup_fmap.
Qed.

Lemma eps_pos : 0 < eps.
Proof. unfold eps. lra. Qed.

Lemma np_abs_nonneg (z : complex) : 0 <= np_abs z.
Proof. apply sqrt_pos. Qed.

Lemma ln_10_pos : 0 < ln 10.
Proof. rewrite <- ln_1. apply ln_increasing; lra. Qed.

Lemma ln_le_mono (x y : R) : 0 < x -> x <= y -> ln x <= ln y.
Proof.
  intros Hx [Hlt | ->]; [|lra].
  left. now apply ln_increasing.
Qed.

Lemma log10_le_mono (x y : R) : 0 < x -> x <= y -> log10 x <= log10 y.
Proof.
  intros Hx Hxy. unfold log10.
  apply Rmult_le_compat_r.
  - left. apply Rinv_0_lt_compat, ln_10_pos.
  - now apply ln_le_mono.
Qed.

Lemma db_of_le_mono (m1 m2 : R) : 0 <= m1 -> m1 <= m2 -> db_of m1 <= db_of m2.
Proof.
  intros H1 H12. unfold db_of.
  apply Rmult_le_compat_l; [lra|].
  pose proof eps_pos.
  apply log10_le_mono; lra.
Qed.

(** C2. Every cell of the decibel grid is [20 * log10 (magnitude + eps)]
    of the coefficient at the same frame and bin, with the fixed positive
    floor [eps = 1e-10]; and the decibel value never decreases when the
    magnitude grows. *)
Theorem db_cell_and_monotone :
  eps = 1 / 10 ^ 10 /\ 0 < eps /\
  (forall (Zxx : grid complex) (i j : nat) (z : complex),
     cell Zxx i j = Some z ->
     cell (magnitude Zxx) i j = Some (np_abs z) /\
     cell (db Zxx) i j = Some (20 * log10 (np_abs z + eps))) /\
  (forall z1 z2 : complex,
     np_abs z1 <= np_abs z2 -> db_of (np_abs z1) <= db_of (np_abs z2)) /\
  (forall m1 m2 : R, 0 <= m1 -> m1 <= m2 -> db_of m1 <= db_of m2).
Proof.
  split; [unfold eps; lra|].
  split; [apply eps_pos|].
  split; [|split].
  - intros Zxx i j z Hz. unfold db, magnitude.
    rewrite !cell_grid_map, Hz. split; reflexivity.
  - intros z1 z2. apply db_of_le_mono, np_abs_nonneg.
  - apply db_of_le_mono.
Qed.

Lemma db_cell_and_monotone_witness :
  cell (db [[(3, 4); (0, 0)]]) 0 0 = Some (20 * log10 (5 + eps)) /\
  db_of 0 <= db_of 5.
Proof.
  destruct db_cell_and_monotone as (_ & _ & Hcell & _ & Hmono).
  split.
  - destruct (Hcell [[(3, 4); (0, 0)]] 0%nat 0%nat (3, 4) eq_refl) as [_ ->].
    unfold np_abs. simpl.
    replace (3 * 3 + 4 * 4) with (5 * 5) by lra.
    rewrite sqrt_square by lra. reflexivity.
  - apply Hmono; lra.
Defined.

(** *** Further facts on the two conversions *)

Lemma np_abs_zero_iff (z : complex) : np_abs z = 0 <-> z = (0, 0).
Proof.
  destruct z as [re im]. unfold np_abs. simpl. split.
  - intros Hz. apply sqrt_eq_0 in Hz; [|nra].
    assert (re = 0) by nra. assert (im = 0) by nra. now subst.
  - intros [= -> ->]. replace (0 * 0 + 0 * 0) with 0 by ring. apply sqrt_0.
Qed.

Lemma db_of_zero : db_of 0 = -200.
Proof.
  unfold db_of, log10. pose proof ln_10_pos as H10.
  replace (0 + eps) with (/ 10 ^ 10) by (unfold eps; lra).
  rewrite ln_Rinv by (apply pow_lt; lra).
  rewrite ln_pow by lra.
  rewrite (INR_IZR_INZ 10). change (Z.of_nat 10) with 10%Z.
  field. lra.
Qed.

(** Magnitudes are never negative, and a magnitude is zero only for the
    zero coefficient. *)
Theorem magnitude_cells_nonnegative (Zxx : grid complex) (i j : nat) (m : R) :
  cell (magnitude Zxx) i j = Some m ->
  0 <= m /\
  (m = 0 <-> cell Zxx i j = Some (0, 0)).
Proof.
  unfold magnitude. rewrite cell_grid_map.
  intros Hm. apply fmap_Some in Hm as (z & Hz & ->).
  split; [apply np_abs_nonneg|]. rewrite Hz, np_abs_zero_iff.
  split; [now intros -> | now intros [= ->]].
Qed.

(** The decibel grid has the shape of the coefficient grid, a silent cell
    is at exactly -200 dB, and no cell is below that. *)
Theorem db_floor_is_minus_200 (Zxx : grid complex) :
  length (db Zxx) = length Zxx /\
  (forall i, length <$> db Zxx !! i = length <$> Zxx !! i) /\
  (forall i j, cell Zxx i j = Some (0, 0) -> cell (db Zxx) i j = Some (-200)) /\
  (forall i j v, cell (db Zxx) i j = Some v -> -200 <= v).
Proof.
  unfold db, magnitude.
  split; [unfold grid_map; now rewrite !length_fmap|].
  split.
  { intros i. unfold grid_map. rewrite !list_lookup_fmap.
    destruct (Zxx !! i) as [row|]; [|reflexivity].
    cbn. now rewrite !length_fmap. }
  split.
  - intros i j Hz. rewrite !cell_grid_map, Hz. cbn.
    replace (np_abs (0, 0)) with 0 by (symmetry; now apply np_abs_zero_iff).
    now rewrite db_of_zero.
  - intros i j v. rewrite !cell_grid_map.
    intros Hv. apply fmap_Some in Hv as (m & Hm & ->).
    apply fmap_Some in Hm as (z & _ & ->).
    rewrite <- db_of_zero. apply db_of_le_mono; [lra | apply np_abs_nonneg].
Qed.

Lemma magnitude_cells_nonnegative_witness :
  cell (magnitude [[(3, 4); (0, 0)]]) 0 1 = Some 0 /\ 0 <= 0.
Proof.
  assert (Hc : cell (magnitude [[(3, 4); (0, 0)]]) 0 1 = Some (np_abs (0, 0)))
    by reflexivity.
  destruct (magnitude_cells_nonnegative [[(3, 4); (0, 0)]] 0 1 _ Hc)
    as [Hnn Hz].
  assert (np_abs (0, 0) = 0) as Hzero by (apply Hz; reflexivity).
  rewrite Hzero in Hc, Hnn. split; assumption.
Defined.

Lemma db_floor_is_minus_200_witness :
  cell (db [[(3, 4); (0, 0)]]) 0 1 = Some (-200).
Proof.
  destruct (db_floor_is_minus_200 [[(3, 4); (0, 0)]]) as (_ & _ & Hz & _).
  apply Hz. reflexivity.
Defined.

End Decibel.

(** ** The two transforms: the engine's convention and the scipy reference *)

Module Spectral.

Import Decibel.
Local Open Scope R_scope.

Definition sum_list (l : list R) : R := fold_right Rplus 0 l.

(** Modelled from the spec: the engine's Hann window (Window Generator),
    [0.5 * (1 - cos (2 pi n / (W - 1)))], with the single weight 1 for
    [W = 1].  The C library that computes it is not among the sources. *)
Definition hann_sym (W n : nat) : R :=
  if (W =? 1)%nat then 1
  else / 2 * (1 - cos (2 * PI * INR n / (INR W - 1))).

(** The window scipy's [stft] builds for its default [window='hann']:
    [get_window('hann', nperseg)], the periodic Hann window. *)
Definition hann_periodic (W n : nat) : R :=
  / 2 - / 2 * cos (2 * PI * INR n / INR W).

Definition window_of (wf : nat -> nat -> R) (W : nat) : list R :=
  wf W <$> seq 0 W.

(** Bin [k] of the unscaled forward DFT of a real sequence. *)
Definition dft_bin (y : list R) (k : nat) : complex :=
  let N := INR (length y) in
  (sum_list (imap (fun n v => v * cos (2 * PI * INR k * INR n / N)) y),
   - sum_list (imap (fun n v => v * sin (2 * PI * INR k * INR n / N)) y)).

(** The non-redundant half of the spectrum, bins [0 .. N/2]. *)
Definition rfft (y : list R) : list complex :=
  dft_bin y <$> seq 0 (length y / 2 + 1).

Definition windowed (w frame : list R) : list R := zip_with Rmult w frame.

Definition frame_at (x : list R) (start W : nat) : list R :=
  take W (drop start x).

(** Modelled from the spec: the engine's transform (Framer, Frame
    Transformer, Spectrogram Assembler).  One row per frame, one column per
    frequency bin, no scaling of the DFT sums. *)
Definition engine_stft (w x : list R) (W H : nat) : grid complex :=
  (fun start : Z => rfft (windowed w (frame_at x (Z.to_nat start) W)))
    <$> Framer.frame_offsets (Z.of_nat (length x)) (Z.of_nat W) (Z.of_nat H).

(** Modelled from the spec: the engine's decibel view,
    [20 * log10 (magnitude + eps)]. *)
Definition engine_db (w x : list R) (W H : nat) : grid R :=
  db (engine_stft w x W H).

(** Number of segments scipy cuts: [(len(x) - noverlap) // (nperseg - noverlap)],
    for a signal that holds at least one window, [nperseg <= len(x)].  On a
    shorter signal scipy lowers [nperseg] to [len(x)] with a warning, or
    raises when [noverlap] is no longer below it; that range is outside this
    definition, and the results below that depend on the number of segments
    assume [nperseg <= len(x)]. *)
Definition scipy_nseg (L nperseg noverlap : nat) : nat :=
  ((L - noverlap) / (nperseg - noverlap))%nat.

(** [scipy.signal.stft(x, fs, nperseg=, noverlap=, nfft=nperseg,
    padded=False, boundary=None)] with its defaults [detrend=False],
    [return_onesided=True], [scaling='spectrum']: each windowed segment is
    transformed and multiplied by [sqrt (1 / win.sum()**2)]; the result has
    the frequency axis first and the segment axis last.  As [scipy_nseg],
    this is scipy's result for [nperseg <= len(x)]. *)
Definition scipy_stft (w x : list R) (nperseg noverlap : nat) : grid complex :=
  let step := (nperseg - noverlap)%nat in
  let scale := sqrt (1 / (sum_list w) ^ 2) in
  (fun k : nat =>
     (fun s : nat =>
        let c := dft_bin (windowed w (frame_at x (s * step) nperseg)) k in
        (fst c * scale, snd c * scale))
       <$> seq 0 (scipy_nseg (length x) nperseg noverlap))
    <$> seq 0 (nperseg / 2 + 1).

(** generate_scipy_stft.py, lines 10-22, on a signal [x]. *)
Definition oracle_db (x : list R) : grid R :=
  db (scipy_stft (window_of hann_periodic 62) x 62 (62 - 31)).

(** The test signal of both scripts, sample [n] at [t = n / 125]. *)
Definition test_signal : list R :=
  (fun n : nat =>
     sin (2 * PI * 10 * (INR n / 125)) + 0.5 * sin (2 * PI * 20 * (INR n / 125)))
    <$> seq 0 250.



(** *** Sums *)

Lemma sum_list_cons (a : R) (l : list R) : sum_list (a :: l) = a + sum_list l.
Proof. reflexivity. Qed.

Lemma sum_list_app (l1 l2 : list R) :
  sum_list (l1 ++ l2) = sum_list l1 + sum_list l2.
Proof. induction l1 as [|a l1 IH]; simpl; [lra | rewrite IH; lra]. Qed.

Lemma sum_list_imap_ext (f : nat -> R -> R) (g : R -> R) (l : list R) :
  (forall n v, f n v = g v) -> sum_list (imap f l) = sum_list (g <$> l).
Proof.
  revert f. induction l as [|a l IH]; intros f Hfg; [reflexivity|].
  rewrite imap_cons, fmap_cons, !sum_list_cons, Hfg. f_equal.
  apply IH. intros n v. apply Hfg.
Qed.

Lemma sum_list_zeros {A} (l : list A) : sum_list ((fun _ => 0) <$> l) = 0.
Proof.
  induction l as [|a l IH]; [reflexivity|].
  rewrite fmap_cons, sum_list_cons, IH. lra.
Qed.

Lemma sum_list_nonneg {A} (f : A -> R) (l : list A) :
  (forall a, In a l -> 0 <= f a) -> 0 <= sum_list (f <$> l).
Proof.
  induction l as [|a l IH]; intros Hf; [simpl; lra|].
  rewrite fmap_cons, sum_list_cons.
  assert (0 <= f a) by (apply Hf; now left).
  assert (0 <= sum_list (f <$> l)) by (apply IH; intros; apply Hf; now right).
  lra.
Qed.

Lemma sum_list_ge_const {A} (f : A -> R) (c : R) (l : list A) :
  (forall a, In a l -> c <= f a) -> INR (length l) * c <= sum_list (f <$> l).
Proof.
  induction l as [|a l IH]; intros Hf.
  - simpl. lra.
  - change (length (a :: l)) with (S (length l)). rewrite S_INR.
    rewrite fmap_cons, sum_list_cons.
    assert (c <= f a) by (apply Hf; now left).
    assert (INR (length l) * c <= sum_list (f <$> l))
      by (apply IH; intros; apply Hf; now right).
    lra.
Qed.

(** *** The DC bin and an all-ones frame *)

Lemma dft_bin_dc (y : list R) : dft_bin y 0 = (sum_list y, 0).
Proof.
  unfold dft_bin. f_equal.
  - rewrite (sum_list_imap_ext _ (fun v => v)).
    + now rewrite list_fmap_id.
    + intros n v. simpl INR.
      replace (2 * PI * 0 * INR n / INR (length y)) with 0
        by (unfold Rdiv; ring).
      rewrite cos_0. ring.
  - rewrite (sum_list_imap_ext _ (fun _ => 0)).
    + rewrite sum_list_zeros. ring.
    + intros n v. simpl INR.
      replace (2 * PI * 0 * INR n / INR (length y)) with 0
        by (unfold Rdiv; ring).
      rewrite sin_0. ring.
Qed.



(** *** Both Hann windows of length 62 have a large sum *)

Lemma cos_mid_nonpos (D : R) (n : nat) :
  61 <= D <= 62 -> (16 <= n <= 45)%nat -> cos (2 * PI * INR n / D) <= 0.
Proof.
  intros HD [Hlo Hhi].
  apply le_INR in Hlo, Hhi.
  rewrite (INR_IZR_INZ 16) in Hlo. rewrite (INR_IZR_INZ 45) in Hhi.
  change (Z.of_nat 16) with 16%Z in Hlo. change (Z.of_nat 45) with 45%Z in Hhi.
  pose proof PI_RGT_0 as Hpi.
  assert (HDinv : 0 < / D) by (apply Rinv_0_lt_compat; lra).
  assert (Hq : 2 * PI * INR n / D = PI * (2 * INR n * / D))
    by (unfold Rdiv; ring).
  assert (Hlow : / 2 <= 2 * INR n * / D).
  { apply Rmult_le_reg_r with D; [lra|].
    replace (2 * INR n * / D * D) with (2 * INR n) by (field; lra). lra. }
  assert (Hup : 2 * INR n * / D <= 3 / 2).
  { apply Rmult_le_reg_r with D; [lra|].
    replace (2 * INR n * / D * D) with (2 * INR n) by (field; lra). lra. }
  apply cos_le_0; rewrite Hq; nra.
Qed.


Lemma hann_periodic_62_nonneg (n : nat) : 0 <= hann_periodic 62 n.
Proof.
  unfold hann_periodic.
  pose proof (COS_bound (2 * PI * INR n / INR 62)). lra.
Qed.


Lemma hann_periodic_62_mid (n : nat) :
  (16 <= n <= 45)%nat -> / 2 <= hann_periodic 62 n.
Proof.
  intros Hn. unfold hann_periodic.
  rewrite (INR_IZR_INZ 62). change (Z.of_nat 62) with 62%Z.
  pose proof (cos_mid_nonpos 62 n ltac:(lra) Hn). lra.
Qed.

(** A window of 62 non-negative weights, thirty of which are at least one
    half, sums to 15 or more. *)
Lemma window_62_sum_ge (wf : nat -> R) :
  (forall n, 0 <= wf n) ->
  (forall n, (16 <= n <= 45)%nat -> / 2 <= wf n) ->
  15 <= sum_list (wf <$> seq 0 62).
Proof.
  intros Hnn Hmid.
  change 62%nat with (16 + (30 + 16))%nat.
  rewrite !seq_app, !fmap_app, !sum_list_app. simpl Nat.add.
  pose proof (sum_list_nonneg wf (seq 0 16) (fun a _ => Hnn a)).
  pose proof (sum_list_nonneg wf (seq 46 16) (fun a _ => Hnn a)).
  assert (INR (length (seq 16 30)) * / 2 <= sum_list (wf <$> seq 16 30)).
  { apply sum_list_ge_const. intros a Ha. apply in_seq in Ha.
    apply Hmid. lia. }
  rewrite length_seq, (INR_IZR_INZ 30) in *.
  change (Z.of_nat 30) with 30%Z in *.
  lra.
Qed.

(** *** Reading cells of the two grids *)



Lemma cell_scipy_stft (w x : list R) (nperseg noverlap k s : nat) (z : complex) :
  cell (scipy_stft w x nperseg noverlap) k s = Some z <->
  (k < nperseg / 2 + 1)%nat /\
  (s < scipy_nseg (length x) nperseg noverlap)%nat /\
  z = (let c := dft_bin (windowed w
                           (frame_at x (s * (nperseg - noverlap)) nperseg)) k in
       (fst c * sqrt (1 / sum_list w ^ 2), snd c * sqrt (1 / sum_list w ^ 2))).
Proof.
  unfold cell, scipy_stft. cbv zeta. rewrite list_lookup_fmap.
  destruct (seq 0 (nperseg / 2 + 1) !! k) as [k'|] eqn:Ek; cbn -[Nat.div].
  - apply lookup_seq in Ek as [-> Hk]. cbn -[Nat.div].
    rewrite list_lookup_fmap, fmap_Some. split.
    + intros (s' & Hs & ->). apply lookup_seq in Hs as [-> Hs]. auto.
    + intros (_ & Hs & ->). exists s. split; [|reflexivity].
      apply lookup_seq. now split.
  - split; [discriminate|]. intros (Hk & _).
    apply lookup_ge_None in Ek. rewrite length_seq in Ek. lia.
Qed.

Lemma cell_db (G : grid complex) (i j : nat) :
  cell (db G) i j = (fun z => db_of (np_abs z)) <$> cell G i j.
Proof.
  unfold db, magnitude. rewrite !cell_grid_map.
  now destruct (cell G i j).
Qed.

Lemma frame_offsets_lookup (L W H : Z) (f : nat) (start : Z) :
  (0 < W)%Z -> (0 < H)%Z ->
  Framer.frame_offsets L W H !! f = Some start -> start = (Z.of_nat f * H)%Z.
Proof.
  intros HW HH. rewrite Framer.frame_offsets_closed_form by assumption.
  change (List.map ?g ?l) with (g <$> l).
  rewrite list_lookup_fmap, fmap_Some.
  intros (j & Hj & ->). apply lookup_seq in Hj as [-> _]. reflexivity.
Qed.

(** *** Effect of scipy's scaling on magnitudes *)

Lemma spectrum_scale (S : R) : 0 < S -> sqrt (1 / S ^ 2) = / S.
Proof.
  intros HS.
  replace (1 / S ^ 2) with (/ S * / S) by (field; lra).
  apply sqrt_square. left. now apply Rinv_0_lt_compat.
Qed.


(** *** Decibel bounds used to separate the two grids *)








Lemma window_of_length (wf : nat -> nat -> R) (W : nat) :
  length (window_of wf W) = W.
Proof. unfold window_of. now rewrite length_fmap, length_seq. Qed.


(** *** Segments of the reference run *)

Lemma scipy_nseg_hop (L W H : nat) :
  (0 < H <= W)%nat -> (W <= L)%nat ->
  scipy_nseg L W (W - H) = ((L - W) / H + 1)%nat.
Proof.
  intros HH HL. unfold scipy_nseg.
  replace (W - (W - H))%nat with H by lia.
  replace (L - (W - H))%nat with (L - W + 1 * H)%nat by lia.
  rewrite Nat.div_add by lia. reflexivity.
Qed.

Lemma segment_within_signal (L W H s : nat) :
  (0 < H <= W)%nat -> (W <= L)%nat ->
  (s < scipy_nseg L W (W - H))%nat ->
  (s * H + W <= L)%nat.
Proof.
  intros HH HL Hs. rewrite scipy_nseg_hop in Hs by assumption.
  assert (s <= (L - W) / H)%nat by lia.
  assert (H * ((L - W) / H) <= L - W)%nat by (apply Nat.Div0.mul_div_le).
  nia.
Qed.

(** *** The two grids, cell by cell *)









(** *** Further facts on the reference run *)

(** With [noverlap = nperseg - hop], as generate_scipy_stft.py sets it,
    scipy cuts [(L - nperseg) / hop + 1] segments out of a signal that holds
    at least one window; segment [s] starts at [s * hop] and lies within the
    signal, so every segment is a full window of samples ([padded=False],
    [boundary=None]). *)
Theorem scipy_segments_fit (x : list R) (W H : nat) :
  (0 < H <= W)%nat -> (W <= length x)%nat ->
  scipy_nseg (length x) W (W - H) = ((length x - W) / H + 1)%nat /\
  forall s,
    (s < scipy_nseg (length x) W (W - H))%nat ->
    (s * (W - (W - H)) + W <= length x)%nat /\
    length (frame_at x (s * (W - (W - H))) W) = W.
Proof.
  intros HH HL.
  split; [now apply scipy_nseg_hop|].
  intros s Hs.
  pose proof (segment_within_signal (length x) W H s HH HL Hs) as Hfit.
  replace (W - (W - H))%nat with H by lia.
  split; [exact Hfit|].
  unfold frame_at. rewrite length_take, length_drop. lia.
Qed.

Lemma sum_list_imap_zero (g : nat -> R) (y : list R) :
  Forall (fun v => v = 0) y ->
  sum_list (imap (fun n v => v * g n) y) = 0.
Proof.
  intros Hy. revert g.
  induction Hy as [|v y -> _ IH]; intros g; [reflexivity|].
  rewrite imap_cons, sum_list_cons.
  change (sum_list (imap ((fun n v => v * g n) ∘ S) y))
    with (sum_list (imap (fun n v => v * g (S n)) y)).
  rewrite (IH (fun n => g (S n))). ring.
Qed.

Lemma dft_bin_of_zeros (y : list R) (k : nat) :
  Forall (fun v => v = 0) y -> dft_bin y k = (0, 0).
Proof.
  intros Hy. unfold dft_bin.
  rewrite (sum_list_imap_zero
             (fun n => cos (2 * PI * INR k * INR n / INR (length y))) y Hy).
  rewrite (sum_list_imap_zero
             (fun n => sin (2 * PI * INR k * INR n / INR (length y))) y Hy).
  now rewrite Ropp_0.
Qed.

Lemma windowed_zeros (w fr : list R) :
  Forall (fun v => v = 0) fr -> Forall (fun v => v = 0) (windowed w fr).
Proof.
  intros Hfr. unfold windowed. revert w.
  induction Hfr as [|v fr -> _ IH]; intros [|a w]; cbn; try constructor.
  - ring.
  - apply IH.
Qed.

(** A silent signal of at least 62 samples: the saved decibel grid has its
    32 rows and [(L - 62) / 31 + 1] columns, and every cell of it is the
    floor, -200 dB. *)
Theorem oracle_db_of_silence (x : list R) (k s : nat) :
  Forall (fun sample => sample = 0) x ->
  (62 <= length x)%nat ->
  (k < 32)%nat ->
  (s < (length x - 62) / 31 + 1)%nat ->
  cell (oracle_db x) k s = Some (-200).
Proof.
  intros Hx HL Hk Hs. unfold oracle_db. rewrite cell_db.
  assert (Hc : cell (scipy_stft (window_of hann_periodic 62) x 62 (62 - 31)) k s
               = Some (0, 0)).
  { apply cell_scipy_stft. split; [exact Hk|].
    split; [rewrite scipy_nseg_hop by lia; exact Hs|]. cbv zeta.
    rewrite dft_bin_of_zeros.
    - cbn [fst snd]. now rewrite !Rmult_0_l.
    - apply windowed_zeros. unfold frame_at.
      now apply Forall_take, Forall_drop. }
  rewrite Hc. cbn [fmap option_fmap option_map]. f_equal.
  replace (np_abs (0, 0)) with 0 by (symmetry; now apply np_abs_zero_iff).
  apply db_of_zero.
Qed.

Lemma sum_windowed_constant (w : list R) (c : R) :
  sum_list (windowed w (replicate (length w) c)) = c * sum_list w.
Proof.
  unfold windowed. induction w as [|a w IH]; [cbn; ring|].
  cbn [length replicate zip_with]. rewrite !sum_list_cons, IH. ring.
Qed.

Lemma np_abs_real (r : R) : np_abs (r, 0) = Rabs r.
Proof.
  unfold np_abs. cbn [fst snd].
  replace (r * r + 0 * 0) with (Rsqr r) by (unfold Rsqr; ring).
  apply sqrt_Rsqr_abs.
Qed.

(** A constant signal of level [c]: scipy's division by the window sum
    makes the DC cell of every segment read the level itself,
    [20 * log10 (|c| + eps)] dB. *)
Theorem oracle_db_of_constant (L : nat) (c : R) (s : nat) :
  (62 <= L)%nat ->
  (s < scipy_nseg L 62 (62 - 31))%nat ->
  cell (oracle_db (replicate L c)) 0 s = Some (db_of (Rabs c)).
Proof.
  intros HL Hs.
  set (w := window_of hann_periodic 62).
  assert (Hw : 15 <= sum_list w)
    by (apply window_62_sum_ge;
        [apply hann_periodic_62_nonneg | apply hann_periodic_62_mid]).
  assert (Hlen : length w = 62%nat) by apply window_of_length.
  pose proof (segment_within_signal L 62 31 s ltac:(lia) HL Hs) as Hin.
  unfold oracle_db. fold w. rewrite cell_db.
  assert (Hc : cell (scipy_stft w (replicate L c) 62 (62 - 31)) 0 s
               = Some (c, 0)).
  { apply cell_scipy_stft. split; [vm_compute; lia|].
    split; [now rewrite length_replicate|]. cbv zeta.
    assert (Hframe : frame_at (replicate L c) (s * (62 - (62 - 31))) 62
                     = replicate (length w) c).
    { unfold frame_at. rewrite drop_replicate, take_replicate, Hlen.
      f_equal. lia. }
    rewrite Hframe, dft_bin_dc, sum_windowed_constant. cbn [fst snd].
    rewrite spectrum_scale by lra.
    f_equal; field; lra. }
  rewrite Hc. cbn [fmap option_fmap option_map].
  now rewrite np_abs_real.
Qed.

Lemma scipy_segments_fit_witness :
  scipy_nseg (length (replicate 250 1)) 62 (62 - 31) = 7%nat.
Proof.
  destruct (scipy_segments_fit (replicate 250 1) 62 31) as [-> _].
  - lia.
  - rewrite length_replicate. lia.
  - rewrite length_replicate. reflexivity.
Defined.

Lemma oracle_db_of_silence_witness :
  cell (oracle_db (replicate 250 0)) 31 6 = Some (-200).
Proof.
  apply (oracle_db_of_silence (replicate 250 0) 31 6).
  - apply Forall_replicate. reflexivity.
  - rewrite length_replicate. lia.
  - lia.
  - rewrite length_replicate. vm_compute. lia.
Defined.

Lemma oracle_db_of_constant_witness :
  cell (oracle_db (replicate 250 (-3))) 0 6 = Some (db_of 3).
Proof.
  assert (Habs : Rabs (-3) = 3)
    by (unfold Rabs; destruct (Rcase_abs (-3)); lra).
  rewrite <- Habs.
  apply oracle_db_of_constant.
  - lia.
  - vm_compute. lia.
Defined.

End Spectral.

(** ** The ctypes wrapper *)

Module Wrapper.

Local Open Scope Z_scope.

(** *** C and Python data *)

(** A C pointer; [NULL] is 0.  A ctypes pointer object is falsy exactly when
    it is [NULL]. *)
Definition ptr : Type := Z.

Definition is_null (p : ptr) : bool := p =? 0.

(** Storing a Python integer in a [c_int] keeps its low 32 bits, read as a
    signed value (ctypes does no overflow checking). *)
Definition c_int (z : Z) : Z := (z + 2 ^ 31) mod 2 ^ 32 - 2 ^ 31.

(** numpy element types; [np.float32] is the one the engine reads. *)
Inductive dtype : Type :=
  | float32
  | float64
  | int32
  | int64
  | complex128
  | other_numeric (name : string).

Definition is_float32 (t : dtype) : bool :=
  match t with float32 => true | _ => false end.

(** Locations of Python objects. *)
Definition loc : Type := positive.

(** Python exceptions the wrapper can end in. *)
Inductive exn : Type :=
  | RuntimeError (msg : string)
  | UnicodeDecodeError (raw : list byte)
  | ValueError (msg : string)
  | TypeError (msg : string)
  | NameError (msg : string).

(** The text [str(e)] shows to a caller.  Python's wording for a decoding
    error, which also names the offending byte and its position, is
    abbreviated. *)
Definition exn_message (e : exn) : string :=
  match e with
  | RuntimeError msg | ValueError msg | TypeError msg | NameError msg => msg
  | UnicodeDecodeError _ => "'utf-8' codec can't decode bytes: invalid data"
  end.

(** *** Strict UTF-8, as [bytes.decode('utf-8')] checks it *)

Definition in_range (lo hi : N) (b : byte) : bool :=
  ((lo <=? Byte.to_N b) && (Byte.to_N b <=? hi))%N.

Definition is_cont (b : byte) : bool := in_range 0x80 0xBF b.

Definition second_of_three (b0 b1 : byte) : bool :=
  if (Byte.to_N b0 =? 0xE0)%N then in_range 0xA0 0xBF b1
  else if (Byte.to_N b0 =? 0xED)%N then in_range 0x80 0x9F b1
  else is_cont b1.

Definition second_of_four (b0 b1 : byte) : bool :=
  if (Byte.to_N b0 =? 0xF0)%N then in_range 0x90 0xBF b1
  else if (Byte.to_N b0 =? 0xF4)%N then in_range 0x80 0x8F b1
  else is_cont b1.

Fixpoint utf8_valid (bs : list byte) : bool :=
  match bs with
  | [] => true
  | b0 :: r0 =>
    if in_range 0x00 0x7F b0 then utf8_valid r0
    else
      match r0 with
      | [] => false
      | b1 :: r1 =>
        if in_range 0xC2 0xDF b0 then is_cont b1 && utf8_valid r1
        else
          match r1 with
          | [] => false
          | b2 :: r2 =>
            if in_range 0xE0 0xEF b0
            then second_of_three b0 b1 && is_cont b2 && utf8_valid r2
            else
              match r2 with
              | [] => false
              | b3 :: r3 =>
                if in_range 0xF0 0xF4 b0
                then second_of_four b0 b1 && is_cont b2 && is_cont b3
                     && utf8_valid r3
                else false
              end
          end
      end
  end.

(** [bs.decode('utf-8')]: the text when the bytes are valid UTF-8. *)
Definition decode_utf8 (bs : list byte) : option string :=
  if utf8_valid bs then Some (string_of_list_byte bs) else None.

(** [needle in hay] on Python strings. *)
Fixpoint contains (needle hay : string) : bool :=
  String.prefix needle hay
  || match hay with
     | EmptyString => false
     | String _ rest => contains needle rest
     end.

(** *** The wrapper, parametric in the number representation *)

Section Model.

(** Array elements and C [double]s.  [cast t] converts a value to element
    type [t]; [zero] is what [np.zeros] fills with. *)
Variable num : Type.
Variable cast : dtype -> num -> num.
Variable zero : num.

(** A numpy array: element type, shape, the [C_CONTIGUOUS] flag and the
    elements in logical order. *)
Record ndarray : Type := {
  nd_dtype : dtype;
  nd_shape : list nat;
  nd_c_contiguous : bool;
  nd_data : list num
}.

(** [astype] copies with [order='K']: the copy is dense, in the memory order
    of its source.  Whether that order is C order depends on the strides of
    the source, which are not modelled; the flag of the copy is left to this
    function. *)
Variable astype_c_contiguous : ndarray -> bool.

(** [np.array(seq, dtype=np.float32)] on a flat Python sequence. *)
Definition np_array_float32 (samples : list num) : ndarray :=
  {| nd_dtype := float32;
     nd_shape := [length samples];
     nd_c_contiguous := true;
     nd_data := cast float32 <$> samples |}.

(** [a.astype(np.float32)]. *)
Definition astype_float32 (a : ndarray) : ndarray :=
  {| nd_dtype := float32;
     nd_shape := nd_shape a;
     nd_c_contiguous := astype_c_contiguous a;
     nd_data := cast float32 <$> nd_data a |}.

(** [np.ascontiguousarray(a)]: same element type and elements, C order, at
    least one dimension. *)
Definition np_ascontiguousarray (a : ndarray) : ndarray :=
  {| nd_dtype := nd_dtype a;
     nd_shape := match nd_shape a with [] => [1%nat] | sh => sh end;
     nd_c_contiguous := true;
     nd_data := nd_data a |}.

(** [len(a)]: the first dimension; a 0-d array has none. *)
Definition py_len (a : ndarray) : option Z :=
  match nd_shape a with
  | [] => None
  | n :: _ => Some (Z.of_nat n)
  end.

(** The [signal] argument: a Python sequence of numbers, or a reference to a
    numpy array that the caller still holds. *)
Inductive signal_arg : Type :=
  | PySeq (samples : list num)
  | PyRef (l : loc).

(** Values stored in the result dictionary. *)
Inductive pyval : Type :=
  | PyInt (z : Z)
  | PyFloat (x : num)
  | PyArray2 (t : dtype) (rows : list (list num)).

(** The ctypes structures of stft_ctypes.py, lines 14-34. *)
Record STFTParameters : Type := {
  window_size : Z;
  hop_size : Z;
  sample_rate : num;
  window_type : Z
}.

Record STFTResult : Type := {
  success : bool;
  spectrogram_data : ptr;
  frame_count : Z;
  frequency_bin_count : Z;
  frame_time : num;
  frequency_resolution : num;
  message : option (list byte)
}.

(** The shared library.  [perform_stft] receives the sample buffer, the
    length and the parameters and answers with a pointer and the structure
    it points to; [stft_get_power_spectrogram_db] answers with a pointer and
    the cells readable through it.  Both are functions of their arguments:
    the engine keeps nothing between calls, writes to no caller memory and
    leaves a result structure as it is once returned (modelled from the
    spec, section 5; the C code is not among the sources). *)
Record Lib : Type := {
  lib_perform_stft : list num -> Z -> STFTParameters -> ptr * STFTResult;
  lib_get_power : ptr -> STFTResult -> ptr * (Z -> Z -> num)
}.

(** Calls into the library, in program order. *)
Inductive event : Type :=
  | EvPerformStft (buffer : loc) (n : Z) (params : STFTParameters)
  | EvGetPower (result_ptr : ptr)
  | EvFreeResult (result_ptr : ptr)
  | EvFree2dArray (power_ptr : ptr) (rows : Z).

(** Interpreter state: the Python objects a caller can reach, and the
    library calls made so far. *)
Record state : Type := {
  store : gmap loc ndarray;
  trace : list event
}.

Inductive result (A : Type) : Type :=
  | Ok (a : A)
  | Raise (e : exn).
Arguments Ok {A} a.
Arguments Raise {A} e.

Definition M (A : Type) : Type := state -> result A * state.

Definition ret {A} (a : A) : M A := fun st => (Ok a, st).

Definition raise {A} (e : exn) : M A := fun st => (Raise e, st).

Definition bind {A B} (m : M A) (k : A -> M B) : M B :=
  fun st =>
    match m st with
    | (Ok a, st') => k a st'
    | (Raise e, st') => (Raise e, st')
    end.

Notation "'let*' x ':=' m 'in' k" := (bind m (fun x => k))
  (at level 10, x name, m at level 100, k at level 200).
Notation "'do' m 'then' k" := (bind m (fun _ => k))
  (at level 10, m at level 100, k at level 200).

(** A new Python object at a location nothing refers to yet. *)
Definition alloc (a : ndarray) : M loc :=
  fun st =>
    let l := fresh (dom (store st)) in
    (Ok l, {| store := <[l := a]> (store st); trace := trace st |}).

(** Following a reference.  A reference to no object does not exist in
    Python; the model ends such a run at once. *)
Definition load (l : loc) : M ndarray :=
  fun st =>
    match store st !! l with
    | Some a => (Ok a, st)
    | None => (Raise (NameError "dangling reference"), st)
    end.

Definition emit (e : event) : M unit :=
  fun st => (Ok tt, {| store := store st; trace := trace st ++ [e] |}).

Definition from_option {A} (e : exn) (o : option A) : M A :=
  match o with
  | Some a => ret a
  | None => raise e
  end.

(** Lines 86-90: convert the input to float32.  The local name [signal] is
    rebound; the caller's object is left alone. *)
Definition to_float32 (signal : signal_arg) : M (loc * ndarray) :=
  match signal with
  | PySeq samples =>
      let a := np_array_float32 samples in
      let* l := alloc a in ret (l, a)
  | PyRef l =>
      let* a := load l in
      if negb (is_float32 (nd_dtype a))
      then let a' := astype_float32 a in
           let* l' := alloc a' in ret (l', a')
      else ret (l, a)
  end.

(** Lines 92-94: make the array C-contiguous. *)
Definition to_contiguous (la : loc * ndarray) : M (loc * ndarray) :=
  if negb (nd_c_contiguous la.2)
  then let a' := np_ascontiguousarray la.2 in
       let* l' := alloc a' in ret (l', a')
  else ret la.

(** Lines 97-102. *)
Definition make_params (ws hs : Z) (sr : num) (wt : Z) : STFTParameters :=
  {| window_size := c_int ws;
     hop_size := c_int hs;
     sample_rate := sr;
     window_type := c_int wt |}.

(** Line 114: the text of a failure message.  A [NULL] or empty message is
    falsy; any other message is decoded and decoding can raise. *)
Definition error_text (msg : option (list byte)) : M string :=
  match msg with
  | Some (b :: bs) =>
      from_option (UnicodeDecodeError (b :: bs)) (decode_utf8 (b :: bs))
  | _ => ret "Unknown error"%string
  end.

(** Line 125: [np.zeros((rows, cols), dtype=np.float32)]. *)
Definition np_zeros (rows cols : Z) : M (list (list num)) :=
  if (rows <? 0) || (cols <? 0)
  then raise (ValueError "negative dimensions are not allowed")
  else ret (replicate (Z.to_nat rows) (replicate (Z.to_nat cols) zero)).

(** [g[f, b] = v]. *)
Definition set_cell (g : list (list num)) (f b : nat) (v : num) :
  list (list num) :=
  alter (fun row => <[b := v]> row) f g.

(** Lines 127-129: the two nested loops copying [power_ptr[frame][bin]]. *)
Definition copy_cells (power : Z -> Z -> num) (rows cols : Z)
    (g : list (list num)) : list (list num) :=
  foldl (fun g f =>
           foldl (fun g b => set_cell g f b (power (Z.of_nat f) (Z.of_nat b)))
                 g (seq 0 (Z.to_nat cols)))
        g (seq 0 (Z.to_nat rows)).

(** Lines 132-138. *)
Definition result_dict (spectrogram : list (list num)) (r : STFTResult) :
  gmap string pyval :=
  <["spectrogram" := PyArray2 float32 spectrogram]>
  (<["frame_count" := PyInt (frame_count r)]>
  (<["frequency_bin_count" := PyInt (frequency_bin_count r)]>
  (<["frame_time" := PyFloat (frame_time r)]>
  (<["frequency_resolution" := PyFloat (frequency_resolution r)]> ∅)))).

(** Lines 106-144: the call into the engine and what follows it. *)
Definition call_engine (lib : Lib) (l : loc) (a : ndarray) (n : Z)
    (params : STFTParameters) : M (gmap string pyval) :=
  do emit (EvPerformStft l n params) then
  let '(result_ptr, res) := lib_perform_stft lib (nd_data a) n params in
  if is_null result_ptr
  then raise (RuntimeError "STFT computation failed")
  else if negb (success res)
  then let* error_msg := error_text (message res) in
       do emit (EvFreeResult result_ptr) then
       raise (RuntimeError ("STFT failed: " +:+ error_msg))
  else
    do emit (EvGetPower result_ptr) then
    let '(power_ptr, power) := lib_get_power lib result_ptr res in
    if is_null power_ptr
    then do emit (EvFreeResult result_ptr) then
         raise (RuntimeError "Failed to get power spectrogram")
    else
      let* zeros := np_zeros (frame_count res) (frequency_bin_count res) in
      let spectrogram :=
        copy_cells power (frame_count res) (frequency_bin_count res) zeros in
      let result_dict := result_dict spectrogram res in
      do emit (EvFree2dArray power_ptr (frame_count res)) then
      do emit (EvFreeResult result_ptr) then
      ret result_dict.

(** Lines 86-105: what reaches the engine: the array, its location and its
    length. *)
Definition marshal (signal : signal_arg) : M (loc * ndarray * Z) :=
  let* la := to_float32 signal in
  let* la := to_contiguous la in
  let* n := from_option (TypeError "len() of unsized object") (py_len la.2) in
  ret (la, c_int n).

(** [STFTWrapper.perform_stft], lines 71-144. *)
Definition perform_stft (lib : Lib) (signal : signal_arg)
    (window_size hop_size : Z) (sample_rate : num) (window_type : Z) :
  M (gmap string pyval) :=
  let* lan := marshal signal in
  call_engine lib lan.1.1 lan.1.2 lan.2
              (make_params window_size hop_size sample_rate window_type).

(** A call from a caller whose reachable objects are [h].  The module-level
    [perform_stft] (lines 147-163) builds a fresh [STFTWrapper] around the
    library and makes this same call. *)
Definition run (lib : Lib) (h : gmap loc ndarray) (signal : signal_arg)
    (window_size hop_size : Z) (sample_rate : num) (window_type : Z) :
  result (gmap string pyval) * state :=
  perform_stft lib signal window_size hop_size sample_rate window_type
               {| store := h; trace := [] |}.

(** *** The copy loops compute the frame-by-bin grid *)

Lemma alter_alter_same {A} (f g : A -> A) (i : nat) (l : list A) :
  alter f i (alter g i l) = alter (fun x => f (g x)) i l.
Proof.
  revert i. induction l as [|x l IH]; intros [|i]; simpl; try reflexivity.
  f_equal. apply IH.
Qed.

Lemma foldl_pointwise {A B} (f g : A -> B -> A) (a : A) (l : list B) :
  (forall a b, f a b = g a b) -> foldl f a l = foldl g a l.
Proof.
  intros Hfg. revert a. induction l as [|b l IH]; intros a; simpl.
  - reflexivity.
  - now rewrite Hfg, IH.
Qed.

(** Writing [p 0 .. p (k-1)] into the first [k] slots of a row. *)
Lemma fill_row_prefix (p : nat -> num) (r : list num) (k : nat) :
  (k <= length r)%nat ->
  foldl (fun r b => <[b := p b]> r) r (seq 0 k) = (p <$> seq 0 k) ++ drop k r.
Proof.
  induction k as [|k IH]; intros Hk.
  - reflexivity.
  - rewrite seq_S, foldl_app, IH by lia. simpl foldl.
    destruct (lookup_lt_is_Some_2 r k ltac:(lia)) as [x Hx].
    rewrite insert_app_r_alt by (rewrite length_fmap, length_seq; lia).
    rewrite length_fmap, length_seq, Nat.sub_diag.
    rewrite (drop_S r x k Hx). simpl.
    rewrite fmap_app, <- app_assoc. reflexivity.
Qed.

Lemma fill_row_full (p : nat -> num) (r : list num) :
  foldl (fun r b => <[b := p b]> r) r (seq 0 (length r))
  = p <$> seq 0 (length r).
Proof.
  rewrite fill_row_prefix by lia. rewrite drop_all. apply app_nil_r.
Qed.

(** The inner loop only touches row [f]. *)
Lemma inner_loop_alter (q : nat -> num) (f : nat) (bs : list nat)
    (g : list (list num)) :
  foldl (fun g b => set_cell g f b (q b)) g bs
  = alter (fun row => foldl (fun r b => <[b := q b]> r) row bs) f g.
Proof.
  revert g. induction bs as [|b bs IH]; intros g; simpl.
  - symmetry. apply list_alter_id. reflexivity.
  - rewrite IH. unfold set_cell. apply alter_alter_same.
Qed.

(** Rewriting every row [f < k] of a grid by [R f]. *)
Lemma outer_loop_prefix (R : nat -> list num -> list num)
    (g : list (list num)) (k : nat) :
  (k <= length g)%nat ->
  foldl (fun g f => alter (R f) f g) g (seq 0 k)
  = imap R (take k g) ++ drop k g.
Proof.
  induction k as [|k IH]; intros Hk.
  - reflexivity.
  - rewrite seq_S, foldl_app, IH by lia. simpl foldl.
    destruct (lookup_lt_is_Some_2 g k ltac:(lia)) as [x Hx].
    assert (Hlen : length (imap R (take k g)) = k)
      by (rewrite length_imap, length_take; lia).
    rewrite alter_app_r_alt by lia. rewrite Hlen, Nat.sub_diag.
    rewrite (drop_S g x k Hx). simpl.
    rewrite (take_S_r g k x Hx), imap_app, <- app_assoc. simpl.
    rewrite length_take, Nat.min_l, Nat.add_0_r by lia. reflexivity.
Qed.

Lemma imap_replicate {A B} (F : nat -> A -> B) (n : nat) (x : A) :
  imap F (replicate n x) = (fun i => F i x) <$> seq 0 n.
Proof.
  revert F. induction n as [|n IH]; intros F; [reflexivity|].
  simpl replicate. rewrite imap_cons, IH. simpl seq.
  rewrite fmap_cons. f_equal. rewrite <- fmap_S_seq, <- list_fmap_compose.
  reflexivity.
Qed.

(** Lines 125-129 leave [power_ptr[frame][bin]] at row [frame], column
    [bin]: one row per frame, one column per frequency bin. *)
Lemma copy_cells_zeros (power : Z -> Z -> num) (rows cols : Z) :
  copy_cells power rows cols
    (replicate (Z.to_nat rows) (replicate (Z.to_nat cols) zero))
  = (fun f : nat =>
       (fun b : nat => power (Z.of_nat f) (Z.of_nat b))
         <$> seq 0 (Z.to_nat cols))
      <$> seq 0 (Z.to_nat rows).
Proof.
  unfold copy_cells.
  set (nr := Z.to_nat rows). set (nc := Z.to_nat cols).
  rewrite (foldl_pointwise _
             (fun g f => alter (fun row =>
                foldl (fun r b => <[b := power (Z.of_nat f) (Z.of_nat b)]> r)
                      row (seq 0 nc)) f g)).
  2: { intros g f. apply (inner_loop_alter (fun b => power (Z.of_nat f) (Z.of_nat b))). }
  rewrite (outer_loop_prefix
             (fun f row =>
                foldl (fun r b => <[b := power (Z.of_nat f) (Z.of_nat b)]> r)
                      row (seq 0 nc)))
    by (rewrite length_replicate; lia).
  rewrite drop_ge, app_nil_r by (rewrite length_replicate; lia).
  rewrite take_ge by (rewrite length_replicate; lia).
  rewrite imap_replicate.
  apply list_fmap_ext. intros _ f _.
  pose proof (fill_row_full (fun b => power (Z.of_nat f) (Z.of_nat b))
                            (replicate nc zero)) as Hrow.
  rewrite length_replicate in Hrow. exact Hrow.
Qed.

(** *** What [marshal] hands over *)

Lemma bind_ok {A B} (m : M A) (k : A -> M B) (st st' : state) (a : A) :
  m st = (Ok a, st') -> bind m k st = k a st'.
Proof. unfold bind. now intros ->. Qed.

Lemma bind_raise {A B} (m : M A) (k : A -> M B) (st st' : state) (e : exn) :
  m st = (Raise e, st') -> bind m k st = (Raise e, st').
Proof. unfold bind. now intros ->. Qed.

(** The conversions of lines 86-94 as functions on array values. *)
Definition float32_of (a : ndarray) : ndarray :=
  if negb (is_float32 (nd_dtype a)) then astype_float32 a else a.

Definition contiguous_of (a : ndarray) : ndarray :=
  if negb (nd_c_contiguous a) then np_ascontiguousarray a else a.

Definition float32_view (signal : signal_arg) (h : gmap loc ndarray) :
  option ndarray :=
  match signal with
  | PySeq samples => Some (np_array_float32 samples)
  | PyRef l => float32_of <$> h !! l
  end.

(** The array the engine will read, given the argument and the objects it
    may refer to. *)
Definition engine_view (signal : signal_arg) (h : gmap loc ndarray) :
  option ndarray :=
  contiguous_of <$> float32_view signal h.

Lemma contiguous_of_flag (a : ndarray) : nd_c_contiguous (contiguous_of a) = true.
Proof.
  unfold contiguous_of.
  destruct (nd_c_contiguous a) eqn:E; simpl; [exact E|reflexivity].
Qed.

Lemma contiguous_of_dtype (a : ndarray) : nd_dtype (contiguous_of a) = nd_dtype a.
Proof. unfold contiguous_of. now destruct (nd_c_contiguous a). Qed.

Lemma float32_of_dtype (a : ndarray) : nd_dtype (float32_of a) = float32.
Proof.
  unfold float32_of. destruct (nd_dtype a) eqn:E; simpl; try reflexivity.
  exact E.
Qed.

Lemma engine_view_float32_contiguous signal h a :
  engine_view signal h = Some a ->
  nd_dtype a = float32 /\ nd_c_contiguous a = true.
Proof.
  unfold engine_view. intros Hv. apply fmap_Some in Hv as (a0 & Hv & ->).
  rewrite contiguous_of_dtype, contiguous_of_flag. split; [|reflexivity].
  destruct signal as [samples | l]; simpl in Hv.
  - now injection Hv as <-.
  - apply fmap_Some in Hv as (a1 & _ & ->). apply float32_of_dtype.
Qed.

(** Allocation extends the store and touches nothing that was there. *)
Lemma alloc_spec (a : ndarray) (st : state) :
  exists l st1,
    alloc a st = (Ok l, st1) /\
    trace st1 = trace st /\
    store st ⊆ store st1 /\
    store st1 !! l = Some a /\
    store st !! l = None.
Proof.
  assert (Hfresh : store st !! fresh (dom (store st)) = None)
    by (apply not_elem_of_dom, is_fresh).
  eexists. eexists. split; [reflexivity|]. simpl.
  split; [reflexivity|]. split; [now apply insert_subseteq|].
  split; [apply lookup_insert_eq | exact Hfresh].
Qed.

Lemma to_float32_spec (signal : signal_arg) (st : state) :
  match float32_view signal (store st) with
  | None => to_float32 signal st = (Raise (NameError "dangling reference"), st)
  | Some a =>
      exists l st1,
        to_float32 signal st = (Ok (l, a), st1) /\
        trace st1 = trace st /\
        store st ⊆ store st1 /\
        store st1 !! l = Some a /\
        (store st !! l = None \/ signal = PyRef l)
  end.
Proof.
  destruct signal as [samples | l0]; unfold float32_view, to_float32.
  - destruct (alloc_spec (np_array_float32 samples) st)
      as (l & st1 & Ha & Ht & Hs & Hl & Hn).
    exists l, st1. rewrite (bind_ok _ _ _ _ _ Ha). repeat split; auto.
  - destruct (store st !! l0) as [a0|] eqn:E0; simpl.
    2: { apply bind_raise. unfold load. now rewrite E0. }
    assert (Hload : load l0 st = (Ok a0, st)) by (unfold load; now rewrite E0).
    rewrite (bind_ok _ _ _ _ _ Hload).
    unfold float32_of.
    destruct (negb (is_float32 (nd_dtype a0))).
    + destruct (alloc_spec (astype_float32 a0) st)
        as (l & st1 & Ha & Ht & Hs & Hl & Hn).
      exists l, st1. rewrite (bind_ok _ _ _ _ _ Ha). repeat split; auto.
    + exists l0, st. repeat split; auto.
Qed.

Lemma to_contiguous_spec (l : loc) (a : ndarray) (st : state) :
  store st !! l = Some a ->
  exists l' st1,
    to_contiguous (l, a) st = (Ok (l', contiguous_of a), st1) /\
    trace st1 = trace st /\
    store st ⊆ store st1 /\
    store st1 !! l' = Some (contiguous_of a) /\
    (store st !! l' = None \/ l' = l).
Proof.
  intros Hl. unfold to_contiguous, contiguous_of. cbn [snd].
  destruct (negb (nd_c_contiguous a)).
  - destruct (alloc_spec (np_ascontiguousarray a) st)
      as (l' & st1 & Ha & Ht & Hs & Hl' & Hn).
    exists l', st1. rewrite (bind_ok _ _ _ _ _ Ha). repeat split; auto.
  - exists l, st. repeat split; auto.
Qed.

(** Full description of [marshal]: the outcome is decided by [engine_view];
    the store only grows, by copies at fresh locations; nothing is sent to
    the library. *)
Lemma marshal_spec (signal : signal_arg) (st : state) :
  match engine_view signal (store st) with
  | None => marshal signal st = (Raise (NameError "dangling reference"), st)
  | Some a =>
      exists l st1,
        marshal signal st =
          (match py_len a with
           | Some n => Ok (l, a, c_int n)
           | None => Raise (TypeError "len() of unsized object")
           end, st1) /\
        trace st1 = trace st /\
        store st ⊆ store st1 /\
        store st1 !! l = Some a /\
        (store st !! l = None \/ signal = PyRef l)
  end.
Proof.
  unfold engine_view, marshal.
  pose proof (to_float32_spec signal st) as Hf.
  destruct (float32_view signal (store st)) as [a0|]; simpl.
  - destruct Hf as (l0 & st0 & Hf & Ht0 & Hs0 & Hl0 & Hn0).
    destruct (to_contiguous_spec l0 a0 st0 Hl0)
      as (l1 & st1 & Hc & Ht1 & Hs1 & Hl1 & Hn1).
    exists l1, st1.
    rewrite (bind_ok _ _ _ _ _ Hf), (bind_ok _ _ _ _ _ Hc). cbn [snd].
    split; [|split; [congruence|split; [etrans; eassumption|split; [assumption|]]]].
    + unfold bind, from_option, ret, raise.
      now destruct (py_len (contiguous_of a0)).
    + destruct Hn1 as [Hn1 | ->]; [|assumption].
      left. destruct (store st !! l1) as [x|] eqn:E; [|reflexivity].
      eapply lookup_weaken in E; [|exact Hs0]. congruence.
  - now rewrite (bind_raise _ _ _ _ _ Hf).
Qed.

(** *** What [call_engine] does, path by path *)

Definition log (st : state) (evs : list event) : state :=
  {| store := store st; trace := trace st ++ evs |}.

(** Line 114 without the state. *)
Definition decode_message (msg : option (list byte)) : result string :=
  match msg with
  | Some (b :: bs) =>
      match decode_utf8 (b :: bs) with
      | Some text => Ok text
      | None => Raise (UnicodeDecodeError (b :: bs))
      end
  | _ => Ok "Unknown error"%string
  end.

Lemma error_text_pure (msg : option (list byte)) (st : state) :
  error_text msg st = (decode_message msg, st).
Proof.
  unfold error_text, decode_message, from_option, ret, raise.
  destruct msg as [[|b bs]|]; try reflexivity.
  now destruct (decode_utf8 (b :: bs)).
Qed.

(** The grid the copy loops build from the cells readable through the power
    pointer. *)
Definition spectrogram_of (power : Z -> Z -> num) (rows cols : Z) :
  list (list num) :=
  (fun f : nat =>
     (fun b : nat => power (Z.of_nat f) (Z.of_nat b)) <$> seq 0 (Z.to_nat cols))
    <$> seq 0 (Z.to_nat rows).

(** Every path through lines 106-144, with the library calls it makes. *)
Definition engine_paths (l : loc) (n : Z) (params : STFTParameters)
    (result_ptr : ptr) (res : STFTResult)
    (power_ptr : ptr) (power : Z -> Z -> num) :
  result (gmap string pyval) * list event :=
  let call := EvPerformStft l n params in
  if is_null result_ptr then
    (Raise (RuntimeError "STFT computation failed"), [call])
  else if negb (success res) then
    match decode_message (message res) with
    | Ok text =>
        (Raise (RuntimeError ("STFT failed: " +:+ text)),
         [call; EvFreeResult result_ptr])
    | Raise e => (Raise e, [call])
    end
  else if is_null power_ptr then
    (Raise (RuntimeError "Failed to get power spectrogram"),
     [call; EvGetPower result_ptr; EvFreeResult result_ptr])
  else if (frame_count res <? 0) || (frequency_bin_count res <? 0) then
    (Raise (ValueError "negative dimensions are not allowed"),
     [call; EvGetPower result_ptr])
  else
    (Ok (result_dict
           (spectrogram_of power (frame_count res) (frequency_bin_count res))
           res),
     [call; EvGetPower result_ptr;
      EvFree2dArray power_ptr (frame_count res); EvFreeResult result_ptr]).

Lemma call_engine_paths (lib : Lib) (l : loc) (a : ndarray) (n : Z)
    (params : STFTParameters) (st : state) :
  call_engine lib l a n params st =
  let rr := lib_perform_stft lib (nd_data a) n params in
  let pp := lib_get_power lib rr.1 rr.2 in
  let out := engine_paths l n params rr.1 rr.2 pp.1 pp.2 in
  (out.1, log st out.2).
Proof.
  cbv zeta. unfold call_engine, engine_paths.
  destruct (lib_perform_stft lib (nd_data a) n params) as [rp res].
  cbn [fst snd].
  unfold bind at 1. cbn [emit].
  destruct (is_null rp); [unfold raise, log; cbn; reflexivity|].
  destruct (negb (success res)).
  - unfold bind at 1. rewrite error_text_pure.
    destruct (decode_message (message res)) as [text|e];
      unfold log, bind, emit, raise; cbn; [|reflexivity].
    now rewrite <- app_assoc.
  - unfold bind at 1. cbn [emit].
    destruct (lib_get_power lib rp res) as [pp power]. cbn [fst snd].
    destruct (is_null pp).
    + unfold log, bind, emit, raise; cbn. now rewrite <- !app_assoc.
    + unfold np_zeros.
      destruct ((frame_count res <? 0) || (frequency_bin_count res <? 0)).
      * unfold log, bind, emit, raise; cbn. now rewrite <- !app_assoc.
      * unfold bind at 1. unfold ret at 1.
        rewrite copy_cells_zeros. fold (spectrogram_of power (frame_count res)
                                          (frequency_bin_count res)).
        unfold log, bind, emit, ret; cbn. now rewrite <- !app_assoc.
Qed.

(** [perform_stft] as a whole: the conversions, then one of the engine
    paths. *)
Lemma perform_stft_spec (lib : Lib) (signal : signal_arg)
    (ws hs : Z) (sr : num) (wt : Z) (st : state) :
  match engine_view signal (store st) with
  | None =>
      perform_stft lib signal ws hs sr wt st
      = (Raise (NameError "dangling reference"), st)
  | Some a =>
      exists l st1,
        trace st1 = trace st /\
        store st ⊆ store st1 /\
        store st1 !! l = Some a /\
        (store st !! l = None \/ signal = PyRef l) /\
        perform_stft lib signal ws hs sr wt st =
          match py_len a with
          | None => (Raise (TypeError "len() of unsized object"), st1)
          | Some n =>
              let params := make_params ws hs sr wt in
              let rr := lib_perform_stft lib (nd_data a) (c_int n) params in
              let pp := lib_get_power lib rr.1 rr.2 in
              let out := engine_paths l (c_int n) params rr.1 rr.2 pp.1 pp.2 in
              (out.1, log st1 out.2)
          end
  end.
Proof.
  pose proof (marshal_spec signal st) as Hm. unfold perform_stft.
  destruct (engine_view signal (store st)) as [a|].
  - destruct Hm as (l & st1 & Hm & Ht & Hs & Hl & Hn).
    exists l, st1. repeat (split; [assumption|]).
    destruct (py_len a) as [n|].
    + rewrite (bind_ok _ _ _ _ _ Hm). cbn [fst snd]. apply call_engine_paths.
    + now rewrite (bind_raise _ _ _ _ _ Hm).
  - now rewrite (bind_raise _ _ _ _ _ Hm).
Qed.

(** *** Failure reporting *)

(** The engine reports an internal failure: a [NULL] result, a result with
    [success == false], or a [NULL] power spectrogram. *)
Definition engine_reports_failure (lib : Lib) (a : ndarray) (n : Z)
    (params : STFTParameters) : Prop :=
  let rr := lib_perform_stft lib (nd_data a) n params in
  is_null rr.1 = true \/
  success rr.2 = false \/
  is_null (lib_get_power lib rr.1 rr.2).1 = true.

Definition five_keys : gset string :=
  {[ "spectrogram"; "frame_count"; "frequency_bin_count"; "frame_time";
     "frequency_resolution" ]}.

Lemma result_dict_dom (g : list (list num)) (r : STFTResult) :
  dom (result_dict g r) = five_keys.
Proof.
  unfold result_dict, five_keys. rewrite !dom_insert_L, dom_empty_L.
  set_solver.
Qed.

Lemma engine_paths_failure l n params rp res pp power :
  is_null rp = true \/ success res = false \/ is_null pp = true ->
  exists e, (engine_paths l n params rp res pp power).1 = Raise e /\
            exn_message e <> ""%string.
Proof.
  intros Hfail. unfold engine_paths.
  destruct (is_null rp); [eexists; split; [reflexivity|discriminate]|].
  destruct (success res); cbn [negb].
  - destruct (is_null pp); [eexists; split; [reflexivity|discriminate]|].
    destruct Hfail as [?|[?|?]]; discriminate.
  - destruct (decode_message (message res)) as [text|e] eqn:Ed;
      (eexists; split; [reflexivity|]).
    + discriminate.
    + unfold decode_message in Ed.
      destruct (message res) as [[|b bs]|]; try discriminate.
      destruct (decode_utf8 (b :: bs)); [discriminate|].
      injection Ed as <-. discriminate.
Qed.

Lemma engine_paths_ok l n params rp res pp power d :
  (engine_paths l n params rp res pp power).1 = Ok d ->
  is_null rp = false /\ success res = true /\ is_null pp = false /\
  d = result_dict
        (spectrogram_of power (frame_count res) (frequency_bin_count res)) res.
Proof.
  unfold engine_paths.
  destruct (is_null rp); [discriminate|].
  destruct (success res); cbn [negb].
  - destruct (is_null pp); [discriminate|].
    destruct ((frame_count res <? 0) || (frequency_bin_count res <? 0));
      [discriminate|].
    cbn [fst]. intros [= <-]. auto.
  - destruct (decode_message (message res)); discriminate.
Qed.

(** The outcome of a path does not depend on where the buffer lives. *)
Lemma engine_paths_outcome_loc l l' n params rp res pp power :
  (engine_paths l n params rp res pp power).1
  = (engine_paths l' n params rp res pp power).1.
Proof.
  unfold engine_paths.
  destruct (is_null rp); [reflexivity|].
  destruct (negb (success res)).
  - now destruct (decode_message (message res)).
  - destruct (is_null pp); [reflexivity|].
    now destruct ((frame_count res <? 0) || (frequency_bin_count res <? 0)).
Qed.

(** C6. Whenever the engine reports an internal failure, [perform_stft]
    ends in an exception that carries a message and returns nothing; and
    whenever it returns, the dictionary is the complete one: exactly the
    five keys, built from a successful result. *)
Theorem engine_failure_raises (lib : Lib) (h : gmap loc ndarray)
    (signal : signal_arg) (ws hs : Z) (sr : num) (wt : Z) :
  (forall a n,
     engine_view signal h = Some a ->
     py_len a = Some n ->
     engine_reports_failure lib a (c_int n) (make_params ws hs sr wt) ->
     exists e, (run lib h signal ws hs sr wt).1 = Raise e /\
               exn_message e <> ""%string) /\
  (forall d,
     (run lib h signal ws hs sr wt).1 = Ok d ->
     dom d = five_keys /\
     exists res power,
       success res = true /\
       d = result_dict
             (spectrogram_of power (frame_count res) (frequency_bin_count res))
             res).
Proof.
  unfold run.
  pose proof (perform_stft_spec lib signal ws hs sr wt
                {| store := h; trace := [] |}) as Hspec.
  cbn [store] in Hspec.
  destruct (engine_view signal h) as [a|].
  - destruct Hspec as (l & st1 & _ & _ & _ & _ & ->).
    split.
    + intros a' n [= <-] Hn Hfail. rewrite Hn. cbv zeta. cbn [fst].
      apply engine_paths_failure. exact Hfail.
    + intros d. destruct (py_len a) as [n|]; [|discriminate].
      cbv zeta. cbn [fst]. intros Hd.
      apply engine_paths_ok in Hd as (_ & Hs & _ & ->).
      split; [apply result_dict_dom|]. eauto.
  - rewrite Hspec. split; [discriminate|]. discriminate.
Qed.

(** C10. A failed result whose message pointer is [NULL] ends in
    [RuntimeError("STFT failed: Unknown error")]: nothing is decoded, the
    result is released, and no value is returned. *)
Theorem null_message_reports_unknown_error (lib : Lib) (h : gmap loc ndarray)
    (signal : signal_arg) (ws hs : Z) (sr : num) (wt : Z)
    (a : ndarray) (n : Z) :
  engine_view signal h = Some a ->
  py_len a = Some n ->
  let rr := lib_perform_stft lib (nd_data a) (c_int n)
                             (make_params ws hs sr wt) in
  is_null rr.1 = false ->
  success rr.2 = false ->
  message rr.2 = None ->
  (run lib h signal ws hs sr wt).1
    = Raise (RuntimeError "STFT failed: Unknown error") /\
  contains "Unknown error"
           (exn_message (RuntimeError "STFT failed: Unknown error")) = true /\
  exists l,
    trace (run lib h signal ws hs sr wt).2
    = [EvPerformStft l (c_int n) (make_params ws hs sr wt);
       EvFreeResult rr.1].
Proof.
  intros Hv Hn rr Hnull Hfail Hmsg. unfold run.
  pose proof (perform_stft_spec lib signal ws hs sr wt
                {| store := h; trace := [] |}) as Hspec.
  cbn [store] in Hspec. rewrite Hv in Hspec.
  destruct Hspec as (l & st1 & Ht & _ & _ & _ & ->).
  rewrite Hn. cbv zeta. fold rr.
  unfold engine_paths. rewrite Hnull, Hfail, Hmsg. cbn [negb decode_message].
  cbn [fst snd log trace]. rewrite Ht.
  split; [reflexivity|]. split; [reflexivity|]. exists l. reflexivity.
Qed.

(** *** What crosses the boundary *)

Lemma engine_paths_events_loc l n params rp res pp power l' n' p' :
  In (EvPerformStft l' n' p') (engine_paths l n params rp res pp power).2 ->
  l' = l.
Proof.
  unfold engine_paths.
  destruct (is_null rp); [|destruct (negb (success res));
    [destruct (decode_message (message res))
    |destruct (is_null pp);
      [|destruct ((frame_count res <? 0) || (frequency_bin_count res <? 0))]]];
    cbn [snd In]; intros Hin;
    repeat (destruct Hin as [Hin|Hin]; try discriminate;
            try (injection Hin as -> _ _; reflexivity));
    contradiction.
Qed.

Lemma engine_paths_calls l n params rp res pp power :
  In (EvPerformStft l n params) (engine_paths l n params rp res pp power).2.
Proof.
  unfold engine_paths.
  destruct (is_null rp); [|destruct (negb (success res));
    [destruct (decode_message (message res))
    |destruct (is_null pp);
      [|destruct ((frame_count res <? 0) || (frequency_bin_count res <? 0))]]];
    cbn [snd]; now left.
Qed.

(** C8. Whatever the caller passes, the buffer the engine is called on
    belongs to a float32, C-contiguous array, and the spectrogram in a
    returned dictionary is a float32 array. *)
Theorem engine_receives_contiguous_float32 (lib : Lib) (h : gmap loc ndarray)
    (signal : signal_arg) (ws hs : Z) (sr : num) (wt : Z) :
  (forall l n p,
     In (EvPerformStft l n p) (trace (run lib h signal ws hs sr wt).2) ->
     exists a,
       store (run lib h signal ws hs sr wt).2 !! l = Some a /\
       engine_view signal h = Some a /\
       nd_dtype a = float32 /\ nd_c_contiguous a = true) /\
  (forall a,
     engine_view signal h = Some a -> is_Some (py_len a) ->
     exists l n p,
       In (EvPerformStft l n p) (trace (run lib h signal ws hs sr wt).2)) /\
  (forall d,
     (run lib h signal ws hs sr wt).1 = Ok d ->
     exists rows, d !! "spectrogram" = Some (PyArray2 float32 rows)).
Proof.
  unfold run.
  pose proof (perform_stft_spec lib signal ws hs sr wt
                {| store := h; trace := [] |}) as Hspec.
  cbn [store trace] in Hspec.
  pose proof (engine_view_float32_contiguous signal h) as Hview.
  destruct (engine_view signal h) as [a|].
  - destruct Hspec as (l & st1 & Ht & _ & Hl & _ & ->).
    destruct (Hview a eq_refl) as [Hd Hc].
    destruct (py_len a) as [n|] eqn:Hlen; cbv zeta; cbn [fst snd log trace store].
    + rewrite Ht. cbn [app]. repeat split.
      * intros l' n' p' Hin. apply engine_paths_events_loc in Hin as ->.
        exists a. auto.
      * intros _ _ _. do 3 eexists. apply engine_paths_calls.
      * intros d Hd'. apply engine_paths_ok in Hd' as (_ & _ & _ & ->).
        eexists. unfold result_dict. apply lookup_insert_eq.
    + rewrite Ht. repeat split.
      * intros ? ? ? [].
      * intros a' [= <-] [? Hx]. congruence.
      * discriminate.
  - rewrite Hspec. cbn [fst snd trace]. repeat split.
    + intros ? ? ? [].
    + discriminate.
    + discriminate.
Qed.

(** *** The caller's objects *)

Lemma engine_view_mono signal (h h' : gmap loc ndarray) a :
  h ⊆ h' -> engine_view signal h = Some a -> engine_view signal h' = Some a.
Proof.
  intros Hsub. unfold engine_view, float32_view.
  destruct signal as [samples | l]; [auto|].
  destruct (h !! l) as [a0|] eqn:E; [|discriminate].
  now rewrite (lookup_weaken _ _ _ _ E Hsub).
Qed.

(** C9. A call leaves every object the caller can reach as it was; when the
    caller's array needed a conversion the engine is given a fresh copy, and
    otherwise the caller's own array, which was already float32 and
    C-contiguous; and a second call on the same arguments, made in the state
    the first one left, has the same outcome. *)
Theorem caller_objects_unchanged (lib : Lib) (h : gmap loc ndarray)
    (signal : signal_arg) (ws hs : Z) (sr : num) (wt : Z) :
  (forall l a,
     h !! l = Some a ->
     store (run lib h signal ws hs sr wt).2 !! l = Some a) /\
  (forall l0 a0 l n p,
     signal = PyRef l0 -> h !! l0 = Some a0 ->
     In (EvPerformStft l n p) (trace (run lib h signal ws hs sr wt).2) ->
     h !! l = None \/
     (l = l0 /\ nd_dtype a0 = float32 /\ nd_c_contiguous a0 = true)) /\
  (perform_stft lib signal ws hs sr wt (run lib h signal ws hs sr wt).2).1
  = (run lib h signal ws hs sr wt).1.
Proof.
  unfold run.
  pose proof (perform_stft_spec lib signal ws hs sr wt
                {| store := h; trace := [] |}) as Hspec.
  cbn [store trace] in Hspec.
  destruct (engine_view signal h) as [a|] eqn:Hv.
  - destruct Hspec as (l & st1 & Ht & Hsub & Hl & Hn & Hrun).
    rewrite Hrun. clear Hrun.
    assert (Hv1 : engine_view signal (store st1) = Some a)
      by (apply (engine_view_mono signal h); assumption).
    destruct (py_len a) as [n|] eqn:Hlen; cbv zeta;
      cbn [fst snd log store trace].
    + set (params := make_params ws hs sr wt).
      set (rr := lib_perform_stft lib (nd_data a) (c_int n) params).
      set (pp := lib_get_power lib rr.1 rr.2).
      split; [|split].
      * intros l' a' Hl'. exact (lookup_weaken _ _ _ _ Hl' Hsub).
      * intros l0 a0 l' n' p' -> Hl0 Hin.
        rewrite Ht in Hin. cbn [app] in Hin.
        apply engine_paths_events_loc in Hin as ->.
        destruct Hn as [Hn | [= ->]]; [now left|]. right.
        pose proof (lookup_weaken _ _ _ _ Hl0 Hsub) as Hl0'.
        assert (a = a0) as -> by congruence.
        destruct (engine_view_float32_contiguous _ _ _ Hv). auto.
      * pose proof (perform_stft_spec lib signal ws hs sr wt
                      (log st1 (engine_paths l (c_int n) params
                                             rr.1 rr.2 pp.1 pp.2).2))
          as Hspec2.
        cbn [log store] in Hspec2. rewrite Hv1 in Hspec2.
        destruct Hspec2 as (l2 & st2 & _ & _ & _ & _ & Hrun2).
        unfold log in Hrun2 |- *. rewrite Hrun2, Hlen. cbv zeta. cbn [fst].
        apply engine_paths_outcome_loc.
    + split; [|split].
      * intros l' a' Hl'. exact (lookup_weaken _ _ _ _ Hl' Hsub).
      * intros l0 a0 l' n' p' _ _ Hin. rewrite Ht in Hin. destruct Hin.
      * pose proof (perform_stft_spec lib signal ws hs sr wt st1) as Hspec2.
        rewrite Hv1 in Hspec2.
        destruct Hspec2 as (l2 & st2 & _ & _ & _ & _ & ->).
        now rewrite Hlen.
  - rewrite Hspec. cbn [fst snd store trace].
    split; [auto|]. split; [intros ? ? ? ? ? _ _ []|].
    now rewrite Hspec.
Qed.

(** *** Releasing the engine's handles *)

Definition is_free_result (p : ptr) (e : event) : bool :=
  match e with EvFreeResult q => p =? q | _ => false end.

Definition is_free_2d_array (p : ptr) (e : event) : bool :=
  match e with EvFree2dArray q _ => p =? q | _ => false end.

Definition count_free_result (p : ptr) (tr : list event) : nat :=
  length (List.filter (is_free_result p) tr).

Definition count_free_2d_array (p : ptr) (tr : list event) : nat :=
  length (List.filter (is_free_2d_array p) tr).

(** The exits the wrapper itself takes: a return, or one of its own
    [RuntimeError]s. *)
Definition own_exit {A} (out : result A) : bool :=
  match out with
  | Ok _ => true
  | Raise (RuntimeError _) => true
  | Raise _ => false
  end.

(** On every path no free is made on a [NULL] handle or twice on one handle;
    on the wrapper's own exits each handle that was obtained is released
    exactly once. *)
Lemma decode_message_raise (msg : option (list byte)) (e : exn) :
  decode_message msg = Raise e -> own_exit (@Raise unit e) = false.
Proof.
  unfold decode_message.
  destruct msg as [[|b bs]|]; try discriminate.
  destruct (decode_utf8 (b :: bs)); [discriminate|].
  now intros [= <-].
Qed.

Ltac in_events :=
  repeat match goal with
         | H : In _ _ |- _ => cbn [In] in H
         | H : _ \/ _ |- _ => destruct H
         | H : False |- _ => destruct H
         | H : @eq event _ _ |- _ =>
             first [discriminate H | injection H as; subst]
         end.

Lemma handles_on_paths l n params rp res pp power :
  let r := engine_paths l n params rp res pp power in
  (forall p, In (EvFreeResult p) r.2 -> p = rp /\ is_null rp = false) /\
  (forall q k, In (EvFree2dArray q k) r.2 -> q = pp /\ is_null pp = false) /\
  (count_free_result rp r.2 <= 1)%nat /\
  (count_free_2d_array pp r.2 <= 1)%nat /\
  (own_exit r.1 = true -> is_null rp = false ->
   count_free_result rp r.2 = 1%nat) /\
  (own_exit r.1 = true -> In (EvGetPower rp) r.2 -> is_null pp = false ->
   count_free_2d_array pp r.2 = 1%nat).
Proof.
  cbv zeta. unfold engine_paths, count_free_result, count_free_2d_array.
  destruct (is_null rp) eqn:Er.
  { cbn. repeat split; intros; in_events; try lia; discriminate. }
  destruct (negb (success res)).
  { destruct (decode_message (message res)) as [text|e] eqn:Ed.
    - cbn [fst snd own_exit List.filter is_free_result is_free_2d_array].
      rewrite Z.eqb_refl. cbn [length].
      repeat split; intros; in_events; auto.
    - apply decode_message_raise in Ed.
      cbn [fst snd List.filter is_free_result is_free_2d_array length].
      change (own_exit (@Raise (gmap string pyval) e))
        with (own_exit (@Raise unit e)). rewrite Ed.
      repeat split; intros; in_events; try lia; discriminate. }
  destruct (is_null pp) eqn:Ep.
  { cbn [fst snd own_exit List.filter is_free_result is_free_2d_array].
    rewrite Z.eqb_refl. cbn [length].
    repeat split; intros; in_events; auto; discriminate. }
  destruct ((frame_count res <? 0) || (frequency_bin_count res <? 0)).
  { cbn. repeat split; intros; in_events; try lia; discriminate. }
  cbn [fst snd own_exit List.filter is_free_result is_free_2d_array].
  rewrite !Z.eqb_refl. cbn [length].
  repeat split; intros; in_events; auto.
Qed.

(** The same for a whole call: what [perform_stft] frees, in terms of the
    handles the library gave it. *)
Lemma run_releases_handles (lib : Lib) (h : gmap loc ndarray)
    (signal : signal_arg) (ws hs : Z) (sr : num) (wt : Z)
    (a : ndarray) (n : Z) :
  engine_view signal h = Some a ->
  py_len a = Some n ->
  let rr := lib_perform_stft lib (nd_data a) (c_int n)
                             (make_params ws hs sr wt) in
  let pp := lib_get_power lib rr.1 rr.2 in
  let r := run lib h signal ws hs sr wt in
  (forall p, In (EvFreeResult p) (trace r.2) ->
             p = rr.1 /\ is_null rr.1 = false) /\
  (forall q k, In (EvFree2dArray q k) (trace r.2) ->
               q = pp.1 /\ is_null pp.1 = false) /\
  (count_free_result rr.1 (trace r.2) <= 1)%nat /\
  (count_free_2d_array pp.1 (trace r.2) <= 1)%nat /\
  (own_exit r.1 = true -> is_null rr.1 = false ->
   count_free_result rr.1 (trace r.2) = 1%nat) /\
  (own_exit r.1 = true -> In (EvGetPower rr.1) (trace r.2) ->
   is_null pp.1 = false ->
   count_free_2d_array pp.1 (trace r.2) = 1%nat).
Proof.
  intros Hv Hn rr pp r. subst r. unfold run.
  pose proof (perform_stft_spec lib signal ws hs sr wt
                {| store := h; trace := [] |}) as Hspec.
  cbn [store trace] in Hspec. rewrite Hv in Hspec.
  destruct Hspec as (l & st1 & Ht & _ & _ & _ & ->).
  rewrite Hn. cbv zeta. fold rr. fold pp.
  cbn [fst snd log trace]. rewrite Ht. cbn [app].
  apply handles_on_paths.
Qed.

(** *** Further behaviour of a call *)

(** A call whose argument converts to a sized array reaches the engine: the
    outcome and the library calls are those of one engine path. *)
Lemma run_reaches_engine (lib : Lib) (h : gmap loc ndarray)
    (signal : signal_arg) (ws hs : Z) (sr : num) (wt : Z)
    (a : ndarray) (n : Z) :
  engine_view signal h = Some a ->
  py_len a = Some n ->
  let params := make_params ws hs sr wt in
  let rr := lib_perform_stft lib (nd_data a) (c_int n) params in
  let pp := lib_get_power lib rr.1 rr.2 in
  exists l st1,
    store st1 !! l = Some a /\
    h ⊆ store st1 /\
    (run lib h signal ws hs sr wt).1
      = (engine_paths l (c_int n) params rr.1 rr.2 pp.1 pp.2).1 /\
    trace (run lib h signal ws hs sr wt).2
      = (engine_paths l (c_int n) params rr.1 rr.2 pp.1 pp.2).2 /\
    store (run lib h signal ws hs sr wt).2 = store st1.
Proof.
  intros Hv Hn params rr pp. unfold run.
  pose proof (perform_stft_spec lib signal ws hs sr wt
                {| store := h; trace := [] |}) as Hspec.
  cbn [store trace] in Hspec. rewrite Hv in Hspec.
  destruct Hspec as (l & st1 & Ht & Hsub & Hl & _ & ->).
  rewrite Hn. cbv zeta. fold params. fold rr. fold pp.
  exists l, st1. cbn [fst snd log trace store]. rewrite Ht.
  repeat split; assumption.
Qed.

(** A call that does not reach the engine makes no library call. *)
Lemma run_without_engine (lib : Lib) (h : gmap loc ndarray)
    (signal : signal_arg) (ws hs : Z) (sr : num) (wt : Z) :
  (engine_view signal h = None \/
   exists a, engine_view signal h = Some a /\ py_len a = None) ->
  trace (run lib h signal ws hs sr wt).2 = [] /\
  exists e, (run lib h signal ws hs sr wt).1 = Raise e.
Proof.
  unfold run.
  pose proof (perform_stft_spec lib signal ws hs sr wt
                {| store := h; trace := [] |}) as Hspec.
  cbn [store trace] in Hspec.
  intros [Hv | (a & Hv & Hn)]; rewrite Hv in Hspec.
  - rewrite Hspec. cbn. eauto.
  - destruct Hspec as (l & st1 & Ht & _ & _ & _ & ->).
    rewrite Hn. cbn [fst snd]. eauto.
Qed.

(** The library-call sequences a call can make. *)
Inductive protocol : list event -> Prop :=
  | no_call : protocol []
  | call_only l n p : protocol [EvPerformStft l n p]
  | call_free l n p rp :
      rp <> 0 -> protocol [EvPerformStft l n p; EvFreeResult rp]
  | call_power l n p rp :
      rp <> 0 -> protocol [EvPerformStft l n p; EvGetPower rp]
  | call_power_free l n p rp :
      rp <> 0 ->
      protocol [EvPerformStft l n p; EvGetPower rp; EvFreeResult rp]
  | call_power_free_both l n p rp pp k :
      rp <> 0 -> pp <> 0 ->
      protocol [EvPerformStft l n p; EvGetPower rp;
                EvFree2dArray pp k; EvFreeResult rp].

Lemma is_null_false (p : ptr) : is_null p = false -> p <> 0.
Proof. unfold is_null. apply Z.eqb_neq. Qed.

Lemma engine_paths_protocol l n params rp res pp power :
  protocol (engine_paths l n params rp res pp power).2.
Proof.
  unfold engine_paths.
  destruct (is_null rp) eqn:Er; [constructor|].
  apply is_null_false in Er.
  destruct (negb (success res)).
  { destruct (decode_message (message res)); now constructor. }
  destruct (is_null pp) eqn:Ep; [now constructor|].
  apply is_null_false in Ep.
  destruct ((frame_count res <? 0) || (frequency_bin_count res <? 0));
    now constructor.
Qed.

(** Every call follows the protocol; so the engine is entered at most once,
    first; the power array is released before the result; and
    [stft_free_result], when it is called, is the last library call. *)
Theorem library_call_protocol (lib : Lib) (h : gmap loc ndarray)
    (signal : signal_arg) (ws hs : Z) (sr : num) (wt : Z) :
  protocol (trace (run lib h signal ws hs sr wt).2) /\
  (forall before p after,
     trace (run lib h signal ws hs sr wt).2
       = before ++ EvFreeResult p :: after ->
     after = []) /\
  (forall before q k after,
     trace (run lib h signal ws hs sr wt).2
       = before ++ EvFree2dArray q k :: after ->
     exists l n p rp,
       before = [EvPerformStft l n p; EvGetPower rp] /\
       after = [EvFreeResult rp]).
Proof.
  assert (Hp : protocol (trace (run lib h signal ws hs sr wt).2)).
  { destruct (engine_view signal h) as [a|] eqn:Hv.
    - destruct (py_len a) as [n|] eqn:Hn.
      + destruct (run_reaches_engine lib h signal ws hs sr wt a n Hv Hn)
          as (l & st1 & _ & _ & _ & -> & _).
        apply engine_paths_protocol.
      + destruct (run_without_engine lib h signal ws hs sr wt) as [-> _];
          [eauto|constructor].
    - destruct (run_without_engine lib h signal ws hs sr wt) as [-> _];
        [eauto|constructor]. }
  split; [exact Hp|].
  split.
  - intros before p after Heq. rewrite Heq in Hp. clear Heq.
    inversion Hp as [Hx|? ? ? Hx|? ? ? ? ? Hx|? ? ? ? ? Hx|? ? ? ? ? Hx
                     |? ? ? ? ? ? ? ? Hx];
      repeat (destruct before as [|? before]; cbn in Hx;
              try discriminate Hx);
      simplify_eq; reflexivity.
  - intros before q k after Heq. rewrite Heq in Hp. clear Heq.
    inversion Hp as [Hx|? ? ? Hx|? ? ? ? ? Hx|? ? ? ? ? Hx|? ? ? ? ? Hx
                     |? ? ? ? ? ? ? ? Hx];
      repeat (destruct before as [|? before]; cbn in Hx;
              try discriminate Hx);
      simplify_eq; eauto 10.
Qed.

(** A [NULL] result: [RuntimeError("STFT computation failed")]; there is
    nothing to release and nothing more is asked of the library. *)
Theorem null_result_raises (lib : Lib) (h : gmap loc ndarray)
    (signal : signal_arg) (ws hs : Z) (sr : num) (wt : Z)
    (a : ndarray) (n : Z) :
  engine_view signal h = Some a ->
  py_len a = Some n ->
  let rr := lib_perform_stft lib (nd_data a) (c_int n)
                             (make_params ws hs sr wt) in
  is_null rr.1 = true ->
  (run lib h signal ws hs sr wt).1
    = Raise (RuntimeError "STFT computation failed") /\
  exists l,
    trace (run lib h signal ws hs sr wt).2
    = [EvPerformStft l (c_int n) (make_params ws hs sr wt)].
Proof.
  intros Hv Hn rr Hnull.
  destruct (run_reaches_engine lib h signal ws hs sr wt a n Hv Hn)
    as (l & st1 & _ & _ & -> & -> & _).
  fold rr. unfold engine_paths. rewrite Hnull. cbn [fst snd]. eauto.
Qed.

(** A [NULL] power spectrogram: the result is released, once, and the call
    ends in [RuntimeError("Failed to get power spectrogram")]. *)
Theorem null_power_raises (lib : Lib) (h : gmap loc ndarray)
    (signal : signal_arg) (ws hs : Z) (sr : num) (wt : Z)
    (a : ndarray) (n : Z) :
  engine_view signal h = Some a ->
  py_len a = Some n ->
  let rr := lib_perform_stft lib (nd_data a) (c_int n)
                             (make_params ws hs sr wt) in
  is_null rr.1 = false ->
  success rr.2 = true ->
  is_null (lib_get_power lib rr.1 rr.2).1 = true ->
  (run lib h signal ws hs sr wt).1
    = Raise (RuntimeError "Failed to get power spectrogram") /\
  exists l,
    trace (run lib h signal ws hs sr wt).2
    = [EvPerformStft l (c_int n) (make_params ws hs sr wt);
       EvGetPower rr.1; EvFreeResult rr.1].
Proof.
  intros Hv Hn rr Hnull Hok Hpower.
  destruct (run_reaches_engine lib h signal ws hs sr wt a n Hv Hn)
    as (l & st1 & _ & _ & -> & -> & _).
  fold rr. unfold engine_paths. rewrite Hnull, Hok, Hpower.
  cbn [negb fst snd]. eauto.
Qed.

(** A failed result with a non-empty message that is valid UTF-8: the text
    of the message, byte for byte, follows ["STFT failed: "], and the result
    is released once; the power spectrogram is never asked for. *)
Theorem decodable_message_reported (lib : Lib) (h : gmap loc ndarray)
    (signal : signal_arg) (ws hs : Z) (sr : num) (wt : Z)
    (a : ndarray) (n : Z) (b : byte) (bs : list byte) :
  engine_view signal h = Some a ->
  py_len a = Some n ->
  let rr := lib_perform_stft lib (nd_data a) (c_int n)
                             (make_params ws hs sr wt) in
  is_null rr.1 = false ->
  success rr.2 = false ->
  message rr.2 = Some (b :: bs) ->
  utf8_valid (b :: bs) = true ->
  (run lib h signal ws hs sr wt).1
    = Raise (RuntimeError ("STFT failed: " +:+ string_of_list_byte (b :: bs))) /\
  list_byte_of_string (string_of_list_byte (b :: bs)) = b :: bs /\
  exists l,
    trace (run lib h signal ws hs sr wt).2
    = [EvPerformStft l (c_int n) (make_params ws hs sr wt);
       EvFreeResult rr.1].
Proof.
  intros Hv Hn rr Hnull Hfail Hmsg Hvalid.
  destruct (run_reaches_engine lib h signal ws hs sr wt a n Hv Hn)
    as (l & st1 & _ & _ & -> & -> & _).
  fold rr. unfold engine_paths, decode_message, decode_utf8.
  rewrite Hnull, Hfail, Hmsg, Hvalid. cbn [negb fst snd].
  split; [reflexivity|].
  split; [apply list_byte_of_string_of_list_byte | eauto].
Qed.

(** An empty message is falsy like a [NULL] one: the caller reads
    ["Unknown error"]. *)
Theorem empty_message_reports_unknown_error (lib : Lib) (h : gmap loc ndarray)
    (signal : signal_arg) (ws hs : Z) (sr : num) (wt : Z)
    (a : ndarray) (n : Z) :
  engine_view signal h = Some a ->
  py_len a = Some n ->
  let rr := lib_perform_stft lib (nd_data a) (c_int n)
                             (make_params ws hs sr wt) in
  is_null rr.1 = false ->
  success rr.2 = false ->
  message rr.2 = Some [] ->
  (run lib h signal ws hs sr wt).1
    = Raise (RuntimeError "STFT failed: Unknown error") /\
  exists l,
    trace (run lib h signal ws hs sr wt).2
    = [EvPerformStft l (c_int n) (make_params ws hs sr wt);
       EvFreeResult rr.1].
Proof.
  intros Hv Hn rr Hnull Hfail Hmsg.
  destruct (run_reaches_engine lib h signal ws hs sr wt a n Hv Hn)
    as (l & st1 & _ & _ & -> & -> & _).
  fold rr. unfold engine_paths, decode_message.
  rewrite Hnull, Hfail, Hmsg. cbn [negb fst snd]. eauto.
Qed.

(** A successful result that announces a negative number of frames or of
    bins: [np.zeros] raises [ValueError] and the call ends there, after
    [stft_get_power_spectrogram_db] and before any release. *)
Theorem negative_dimensions_raise (lib : Lib) (h : gmap loc ndarray)
    (signal : signal_arg) (ws hs : Z) (sr : num) (wt : Z)
    (a : ndarray) (n : Z) :
  engine_view signal h = Some a ->
  py_len a = Some n ->
  let rr := lib_perform_stft lib (nd_data a) (c_int n)
                             (make_params ws hs sr wt) in
  is_null rr.1 = false ->
  success rr.2 = true ->
  is_null (lib_get_power lib rr.1 rr.2).1 = false ->
  frame_count rr.2 < 0 \/ frequency_bin_count rr.2 < 0 ->
  (run lib h signal ws hs sr wt).1
    = Raise (ValueError "negative dimensions are not allowed") /\
  exists l,
    trace (run lib h signal ws hs sr wt).2
    = [EvPerformStft l (c_int n) (make_params ws hs sr wt); EvGetPower rr.1].
Proof.
  intros Hv Hn rr Hnull Hok Hpower Hneg.
  destruct (run_reaches_engine lib h signal ws hs sr wt a n Hv Hn)
    as (l & st1 & _ & _ & -> & -> & _).
  fold rr. unfold engine_paths. rewrite Hnull, Hok, Hpower.
  assert ((frame_count rr.2 <? 0) || (frequency_bin_count rr.2 <? 0) = true)
    as -> by (apply orb_true_iff; rewrite !Z.ltb_lt; exact Hneg).
  cbn [negb fst snd]. eauto.
Qed.

(** Cells of the grid the copy loops build. *)
Lemma spectrogram_of_cell (power : Z -> Z -> num) (rows cols : Z) (f b : nat) :
  (f < Z.to_nat rows)%nat -> (b < Z.to_nat cols)%nat ->
  spectrogram_of power rows cols !! f ≫= (fun row => row !! b)
  = Some (power (Z.of_nat f) (Z.of_nat b)).
Proof.
  intros Hf Hb. unfold spectrogram_of.
  rewrite list_lookup_fmap, (lookup_seq_lt 0 _ f Hf). cbn [fmap option_fmap option_map mbind option_bind Nat.add].
  rewrite list_lookup_fmap, (lookup_seq_lt 0 _ b Hb). reflexivity.
Qed.

Lemma spectrogram_of_shape (power : Z -> Z -> num) (rows cols : Z) :
  length (spectrogram_of power rows cols) = Z.to_nat rows /\
  Forall (fun row => length row = Z.to_nat cols)
         (spectrogram_of power rows cols).
Proof.
  unfold spectrogram_of. split.
  - now rewrite length_fmap, length_seq.
  - apply Forall_fmap, Forall_forall. intros f _. cbn.
    now rewrite length_fmap, length_seq.
Qed.

(** What a returning call hands back: a float32 grid with one row per frame
    and one column per bin, holding [power_ptr[frame][bin]] at row [frame],
    column [bin]; the two counts in the dictionary are the shape of that
    grid, and the two metadata values are the engine's. *)
Theorem returned_spectrogram_matches_engine (lib : Lib) (h : gmap loc ndarray)
    (signal : signal_arg) (ws hs : Z) (sr : num) (wt : Z)
    (a : ndarray) (n : Z) (d : gmap string pyval) :
  engine_view signal h = Some a ->
  py_len a = Some n ->
  (run lib h signal ws hs sr wt).1 = Ok d ->
  let rr := lib_perform_stft lib (nd_data a) (c_int n)
                             (make_params ws hs sr wt) in
  let power := (lib_get_power lib rr.1 rr.2).2 in
  exists rows,
    d !! "spectrogram" = Some (PyArray2 float32 rows) /\
    d !! "frame_count" = Some (PyInt (frame_count rr.2)) /\
    d !! "frequency_bin_count" = Some (PyInt (frequency_bin_count rr.2)) /\
    d !! "frame_time" = Some (PyFloat (frame_time rr.2)) /\
    d !! "frequency_resolution" = Some (PyFloat (frequency_resolution rr.2)) /\
    0 <= frame_count rr.2 /\ 0 <= frequency_bin_count rr.2 /\
    Z.of_nat (length rows) = frame_count rr.2 /\
    Forall (fun row => Z.of_nat (length row) = frequency_bin_count rr.2) rows /\
    forall f b : nat,
      Z.of_nat f < frame_count rr.2 ->
      Z.of_nat b < frequency_bin_count rr.2 ->
      rows !! f ≫= (fun row => row !! b)
      = Some (power (Z.of_nat f) (Z.of_nat b)).
Proof.
  intros Hv Hn Hd rr power.
  destruct (run_reaches_engine lib h signal ws hs sr wt a n Hv Hn)
    as (l & st1 & _ & _ & Hout & _ & _).
  rewrite Hout in Hd. fold rr in Hd.
  assert (Hdims : 0 <= frame_count rr.2 /\ 0 <= frequency_bin_count rr.2).
  { unfold engine_paths in Hd.
    destruct (is_null rr.1); [discriminate|].
    destruct (negb (success rr.2));
      [destruct (decode_message (message rr.2)); discriminate|].
    destruct (is_null (lib_get_power lib rr.1 rr.2).1); [discriminate|].
    destruct ((frame_count rr.2 <? 0) || (frequency_bin_count rr.2 <? 0))
      eqn:E; [discriminate|].
    apply orb_false_iff in E as [E1 E2].
    apply Z.ltb_ge in E1, E2. auto. }
  apply engine_paths_ok in Hd as (_ & _ & _ & ->).
  destruct Hdims as [Hf Hb].
  destruct (spectrogram_of_shape power (frame_count rr.2)
                                 (frequency_bin_count rr.2)) as [Hlen Hrows].
  eexists. unfold result_dict.
  split; [apply lookup_insert_eq|].
  split; [now rewrite lookup_insert_ne, lookup_insert_eq|].
  split; [now rewrite !lookup_insert_ne, lookup_insert_eq by discriminate|].
  split; [now rewrite !lookup_insert_ne, lookup_insert_eq by discriminate|].
  split; [now rewrite !lookup_insert_ne, lookup_insert_eq by discriminate|].
  split; [exact Hf|]. split; [exact Hb|].
  split; [fold power; lia|].
  split.
  - fold power. eapply Forall_impl; [exact Hrows|]. cbn. intros row ->. lia.
  - intros f b Hf' Hb'. apply spectrogram_of_cell; lia.
Qed.

(** *** What the engine is given *)

Lemma engine_paths_call_event l n params rp res pp power l' n' p' :
  In (EvPerformStft l' n' p') (engine_paths l n params rp res pp power).2 ->
  l' = l /\ n' = n /\ p' = params.
Proof.
  unfold engine_paths.
  destruct (is_null rp); [|destruct (negb (success res));
    [destruct (decode_message (message res))
    |destruct (is_null pp);
      [|destruct ((frame_count res <? 0) || (frequency_bin_count res <? 0))]]];
    cbn [snd]; intros Hin; in_events; auto.
Qed.

Lemma contiguous_of_data (a : ndarray) : nd_data (contiguous_of a) = nd_data a.
Proof. unfold contiguous_of. now destruct (nd_c_contiguous a). Qed.

Lemma float32_of_data (a : ndarray) :
  nd_data (float32_of a)
  = if is_float32 (nd_dtype a) then nd_data a
    else cast float32 <$> nd_data a.
Proof. unfold float32_of. now destruct (is_float32 (nd_dtype a)). Qed.

(** The buffer the engine is called on holds every sample of the argument,
    in order: converted to float32 when the argument was a Python sequence
    or an array of another element type, untouched when it was a float32
    array.  The length passed is [len(signal)] as a C [int], and the
    parameters are the caller's. *)
Theorem engine_receives_the_samples (lib : Lib) (h : gmap loc ndarray)
    (signal : signal_arg) (ws hs : Z) (sr : num) (wt : Z)
    (l : loc) (n : Z) (p : STFTParameters) :
  In (EvPerformStft l n p) (trace (run lib h signal ws hs sr wt).2) ->
  p = make_params ws hs sr wt /\
  exists a len,
    store (run lib h signal ws hs sr wt).2 !! l = Some a /\
    py_len a = Some len /\ n = c_int len /\
    match signal with
    | PySeq samples =>
        nd_data a = cast float32 <$> samples /\
        len = Z.of_nat (length samples)
    | PyRef l0 =>
        exists a0,
          h !! l0 = Some a0 /\
          nd_data a = if is_float32 (nd_dtype a0) then nd_data a0
                      else cast float32 <$> nd_data a0
    end.
Proof.
  intros Hin.
  destruct (engine_view signal h) as [a|] eqn:Hv.
  2: { destruct (run_without_engine lib h signal ws hs sr wt) as [Ht _];
         [eauto|]. rewrite Ht in Hin. destruct Hin. }
  destruct (py_len a) as [len|] eqn:Hn.
  2: { destruct (run_without_engine lib h signal ws hs sr wt) as [Ht _];
         [eauto|]. rewrite Ht in Hin. destruct Hin. }
  destruct (run_reaches_engine lib h signal ws hs sr wt a len Hv Hn)
    as (l1 & st1 & Hl1 & _ & _ & Ht & Hs).
  rewrite Ht in Hin. apply engine_paths_call_event in Hin as (-> & -> & ->).
  split; [reflexivity|]. exists a, len. rewrite Hs.
  split; [exact Hl1|]. split; [exact Hn|]. split; [reflexivity|].
  unfold engine_view in Hv. apply fmap_Some in Hv as (a1 & Hv & ->).
  rewrite contiguous_of_data.
  destruct signal as [samples | l0]; cbn [float32_view] in Hv.
  - injection Hv as <-. split; [reflexivity|].
    unfold contiguous_of, py_len in Hn. cbn in Hn. now injection Hn as <-.
  - apply fmap_Some in Hv as (a0 & Ha0 & ->).
    exists a0. split; [exact Ha0 | apply float32_of_data].
Qed.

Lemma marshal_fast_path (l0 : loc) (a0 : ndarray) (st : state) :
  store st !! l0 = Some a0 ->
  nd_dtype a0 = float32 ->
  nd_c_contiguous a0 = true ->
  marshal (PyRef l0) st
  = (match py_len a0 with
     | Some n => Ok (l0, a0, c_int n)
     | None => Raise (TypeError "len() of unsized object")
     end, st).
Proof.
  intros Hl Hd Hc. unfold marshal.
  assert (Hf : to_float32 (PyRef l0) st = (Ok (l0, a0), st)).
  { unfold to_float32.
    assert (Hload : load l0 st = (Ok a0, st)) by (unfold load; now rewrite Hl).
    rewrite (bind_ok _ _ _ _ _ Hload), Hd. reflexivity. }
  assert (Hk : to_contiguous (l0, a0) st = (Ok (l0, a0), st)).
  { unfold to_contiguous. cbn [snd]. rewrite Hc. reflexivity. }
  rewrite (bind_ok _ _ _ _ _ Hf), (bind_ok _ _ _ _ _ Hk). cbn [snd].
  unfold bind, from_option, ret, raise. now destruct (py_len a0).
Qed.

(** A float32, C-contiguous array is handed over as it is, without a copy
    of the signal: neither conversion of lines 86-94 adds an array to the
    caller's objects, and the buffer the engine reads is the caller's. *)
Theorem float32_contiguous_is_not_copied (lib : Lib) (h : gmap loc ndarray)
    (l0 : loc) (a0 : ndarray) (ws hs : Z) (sr : num) (wt : Z) :
  h !! l0 = Some a0 ->
  nd_dtype a0 = float32 ->
  nd_c_contiguous a0 = true ->
  store (run lib h (PyRef l0) ws hs sr wt).2 = h /\
  forall l n p,
    In (EvPerformStft l n p) (trace (run lib h (PyRef l0) ws hs sr wt).2) ->
    l = l0.
Proof.
  intros Hl Hd Hc. unfold run, perform_stft.
  pose proof (marshal_fast_path l0 a0 {| store := h; trace := [] |} Hl Hd Hc)
    as Hm.
  destruct (py_len a0) as [n|].
  - rewrite (bind_ok _ _ _ _ _ Hm). cbn [fst snd].
    rewrite call_engine_paths. cbv zeta. cbn [fst snd log store trace app].
    split; [reflexivity|].
    intros l n' p Hin. now apply engine_paths_events_loc in Hin.
  - rewrite (bind_raise _ _ _ _ _ Hm). cbn [fst snd store trace].
    split; [reflexivity|]. intros ? ? ? [].
Qed.

(** A Python sequence is copied exactly once: after the call the caller's
    objects are there unchanged, plus one new float32 array of the same
    length, which is the engine's buffer. *)
Theorem python_sequence_is_copied_once (lib : Lib) (h : gmap loc ndarray)
    (samples : list num) (ws hs : Z) (sr : num) (wt : Z) :
  exists l,
    h !! l = None /\
    store (run lib h (PySeq samples) ws hs sr wt).2
      = <[l := np_array_float32 samples]> h /\
    length (nd_data (np_array_float32 samples)) = length samples /\
    In (EvPerformStft l (c_int (Z.of_nat (length samples)))
                      (make_params ws hs sr wt))
       (trace (run lib h (PySeq samples) ws hs sr wt).2).
Proof.
  exists (fresh (dom h)).
  split; [apply not_elem_of_dom, is_fresh|].
  unfold run, perform_stft.
  assert (Hm : marshal (PySeq samples) {| store := h; trace := [] |}
               = (Ok (fresh (dom h), np_array_float32 samples,
                      c_int (Z.of_nat (length samples))),
                  {| store := <[fresh (dom h) := np_array_float32 samples]> h;
                     trace := [] |})) by reflexivity.
  rewrite (bind_ok _ _ _ _ _ Hm). cbn [fst snd].
  rewrite call_engine_paths. cbv zeta. cbn [fst snd log store trace app].
  split; [reflexivity|]. split; [cbn; apply length_fmap|].
  apply engine_paths_calls.
Qed.

(** An array without a first dimension has no [len]: the call ends in
    [TypeError] before the library is entered. *)
Theorem unsized_array_raises_type_error (lib : Lib) (h : gmap loc ndarray)
    (signal : signal_arg) (ws hs : Z) (sr : num) (wt : Z) (a : ndarray) :
  engine_view signal h = Some a ->
  nd_shape a = [] ->
  (run lib h signal ws hs sr wt).1
    = Raise (TypeError "len() of unsized object") /\
  trace (run lib h signal ws hs sr wt).2 = [].
Proof.
  intros Hv Hs. unfold run.
  pose proof (perform_stft_spec lib signal ws hs sr wt
                {| store := h; trace := [] |}) as Hspec.
  cbn [store trace] in Hspec. rewrite Hv in Hspec.
  destruct Hspec as (l & st1 & Ht & _ & _ & _ & ->).
  unfold py_len. rewrite Hs. cbn [fst snd]. auto.
Qed.

(** The three integer parameters reach the engine as C [int]s: always
    within the 32-bit signed range, unchanged when they were within it, and
    the same for any two values that differ by a multiple of [2^32]. *)
Theorem parameters_are_c_ints (ws hs : Z) (sr : num) (wt : Z) :
  let p := make_params ws hs sr wt in
  (- 2 ^ 31 <= window_size p < 2 ^ 31 /\
   - 2 ^ 31 <= hop_size p < 2 ^ 31 /\
   - 2 ^ 31 <= window_type p < 2 ^ 31) /\
  sample_rate p = sr /\
  (- 2 ^ 31 <= ws < 2 ^ 31 -> window_size p = ws) /\
  (- 2 ^ 31 <= hs < 2 ^ 31 -> hop_size p = hs) /\
  (- 2 ^ 31 <= wt < 2 ^ 31 -> window_type p = wt) /\
  (forall k1 k2 k3,
     make_params (ws + k1 * 2 ^ 32) (hs + k2 * 2 ^ 32) sr (wt + k3 * 2 ^ 32)
     = p).
Proof.
  cbv zeta. unfold make_params, c_int. cbn [window_size hop_size window_type sample_rate].
  assert (Hmod : forall z, 0 <= (z + 2 ^ 31) mod 2 ^ 32 < 2 ^ 32)
    by (intros; apply Z.mod_pos_bound; lia).
  pose proof (Hmod ws). pose proof (Hmod hs). pose proof (Hmod wt).
  repeat split; try lia.
  - intros Hr. rewrite Z.mod_small by lia. lia.
  - intros Hr. rewrite Z.mod_small by lia. lia.
  - intros Hr. rewrite Z.mod_small by lia. lia.
  - assert (Hwrap : forall z k,
              (z + k * 2 ^ 32 + 2 ^ 31) mod 2 ^ 32 = (z + 2 ^ 31) mod 2 ^ 32).
    { intros z k.
      replace (z + k * 2 ^ 32 + 2 ^ 31) with (z + 2 ^ 31 + k * 2 ^ 32) by lia.
      apply Z.mod_add. lia. }
    intros k1 k2 k3. now rewrite !Hwrap.
Qed.

(** A message made of ASCII bytes always decodes, to the same bytes. *)
Theorem ascii_message_decodes (bs : list byte) :
  Forall (fun b => (Byte.to_N b < 128)%N) bs ->
  decode_utf8 bs = Some (string_of_list_byte bs) /\
  list_byte_of_string (string_of_list_byte bs) = bs.
Proof.
  intros Hascii. split; [|apply list_byte_of_string_of_list_byte].
  unfold decode_utf8.
  assert (utf8_valid bs = true) as ->; [|reflexivity].
  induction Hascii as [|b bs Hb _ IH]; [reflexivity|].
  cbn [utf8_valid].
  assert (in_range 0 127 b = true) as ->; [|exact IH].
  unfold in_range. apply andb_true_iff. split.
  - apply N.leb_le. lia.
  - apply N.leb_le. lia.
Qed.

End Model.

Arguments Ok {A} a.
Arguments Raise {A} e.
Arguments PySeq {num} samples.
Arguments PyRef {num} l.
Arguments nd_dtype {num} n.
Arguments nd_shape {num} n.
Arguments nd_c_contiguous {num} n.
Arguments nd_data {num} n.
Arguments store {num} s.
Arguments trace {num} s.
Arguments EvPerformStft {num} buffer n params.
Arguments EvGetPower {num} result_ptr.
Arguments EvFreeResult {num} result_ptr.
Arguments EvFree2dArray {num} power_ptr rows.
Arguments make_params {num} ws hs sr wt.
Arguments lib_perform_stft {num} l _ _ _.
Arguments lib_get_power {num} l _ _.
Arguments count_free_result {num} p tr.
Arguments count_free_2d_array {num} p tr.

(** *** A concrete instance: integer-valued samples *)

Definition z_cast (t : dtype) (z : Z) : Z := z.

Definition z_layout (a : ndarray Z) : bool := true.

Definition run_z := run Z z_cast 0 z_layout.

Definition blank_result : STFTResult Z :=
  {| success := false; spectrogram_data := 0; frame_count := 0;
     frequency_bin_count := 0; frame_time := 0; frequency_resolution := 0;
     message := None |}.

(** An engine that answers with [NULL]. *)
Definition null_lib : Lib Z :=
  {| lib_perform_stft := fun _ _ _ => (0, blank_result);
     lib_get_power := fun _ _ => (0, fun _ _ => 0) |}.

(** An engine that fails with the given message. *)
Definition failing_lib (msg : option (list byte)) : Lib Z :=
  {| lib_perform_stft := fun _ _ _ =>
       (7, {| success := false; spectrogram_data := 0; frame_count := 0;
              frequency_bin_count := 0; frame_time := 0;
              frequency_resolution := 0; message := msg |});
     lib_get_power := fun _ _ => (0, fun _ _ => 0) |}.

(** An engine that succeeds with a 2-by-3 grid whose cell (f, b) holds
    [10 f + b]. *)
Definition small_lib : Lib Z :=
  {| lib_perform_stft := fun _ _ _ =>
       (7, {| success := true; spectrogram_data := 8; frame_count := 2;
              frequency_bin_count := 3; frame_time := 1;
              frequency_resolution := 2; message := None |});
     lib_get_power := fun _ _ => (9, fun f b => 10 * f + b) |}.

Example utf8_ascii : decode_utf8 [Byte.x48; Byte.x69] = Some "Hi"%string.
Proof. reflexivity. Qed.

Example utf8_two_bytes : utf8_valid [Byte.xc3; Byte.xa9] = true.
Proof. reflexivity. Qed.

Example utf8_overlong : utf8_valid [Byte.xc0; Byte.x80] = false.
Proof. reflexivity. Qed.

Example utf8_surrogate : utf8_valid [Byte.xed; Byte.xa0; Byte.x80] = false.
Proof. reflexivity. Qed.

Example utf8_lone_ff : decode_utf8 [Byte.xff] = None.
Proof. reflexivity. Qed.

Example small_run_spectrogram :
  (run_z small_lib ∅ (PySeq [1; 2; 3]) 2 1 125 0).1
  = Ok (result_dict Z [[0; 1; 2]; [10; 11; 12]]
                    (lib_perform_stft small_lib [] 0
                       (make_params 2 1 125 0)).2).
Proof. reflexivity. Qed.

Lemma engine_failure_raises_witness :
  (exists e, (run_z null_lib ∅ (PySeq [1; 2; 3]) 2 1 125 0).1 = Raise e /\
             exn_message e <> ""%string) /\
  (exists d, (run_z small_lib ∅ (PySeq [1; 2; 3]) 2 1 125 0).1 = Ok d /\
             dom d = five_keys).
Proof.
  split.
  - destruct (engine_failure_raises Z z_cast 0 z_layout null_lib ∅
                (PySeq [1; 2; 3]) 2 1 125 0) as [Hfail _].
    apply (Hfail (np_array_float32 Z z_cast [1; 2; 3]) 3).
    + reflexivity.
    + reflexivity.
    + left. reflexivity.
  - destruct (engine_failure_raises Z z_cast 0 z_layout small_lib ∅
                (PySeq [1; 2; 3]) 2 1 125 0) as [_ Hok].
    eexists. split; [reflexivity|].
    apply Hok. reflexivity.
Defined.

Lemma null_message_reports_unknown_error_witness :
  (run_z (failing_lib None) ∅ (PySeq [1; 2; 3]) 2 1 125 0).1
  = Raise (RuntimeError "STFT failed: Unknown error").
Proof.
  apply (null_message_reports_unknown_error Z z_cast 0 z_layout
           (failing_lib None) ∅ (PySeq [1; 2; 3]) 2 1 125 0
           (np_array_float32 Z z_cast [1; 2; 3]) 3); reflexivity.
Defined.

Lemma engine_receives_contiguous_float32_witness :
  exists a,
    store (run_z small_lib ∅ (PySeq [1; 2; 3]) 2 1 125 0).2 !! 1%positive
      = Some a /\
    nd_dtype a = float32 /\ nd_c_contiguous a = true.
Proof.
  destruct (engine_receives_contiguous_float32 Z z_cast 0 z_layout small_lib ∅
              (PySeq [1; 2; 3]) 2 1 125 0) as [Hin _].
  destruct (Hin 1%positive 3 (make_params 2 1 125 0)) as (a & Ha & _ & Hd & Hc).
  - left. reflexivity.
  - exists a. auto.
Defined.

(** A caller-held float64 array of three samples, seen through a
    non-contiguous view. *)
Definition caller_array : ndarray Z :=
  {| nd_dtype := float64; nd_shape := [3%nat]; nd_c_contiguous := false;
     nd_data := [4; 5; 6] |}.

Lemma caller_objects_unchanged_witness :
  store (run_z small_lib {[ 5%positive := caller_array ]}
               (PyRef 5%positive) 2 1 125 0).2 !! 5%positive
  = Some caller_array.
Proof.
  destruct (caller_objects_unchanged Z z_cast 0 z_layout small_lib
              {[ 5%positive := caller_array ]} (PyRef 5%positive) 2 1 125 0)
    as [Hframe _].
  apply Hframe. reflexivity.
Defined.

(** C7, where the code falls short.  The engine fails with a message that is
    not valid UTF-8: line 114 raises [UnicodeDecodeError] before line 115
    runs, so the result handle 7 that [perform_stft] obtained is never passed
    to [stft_free_result]. *)
Theorem undecodable_message_leaks_result :
  let r := run_z (failing_lib (Some [Byte.xff])) ∅ (PySeq [1; 2; 3]) 2 1 125 0 in
  (lib_perform_stft (failing_lib (Some [Byte.xff])) [1; 2; 3] 3
                    (make_params 2 1 125 0)).1 = 7 /\
  is_null 7 = false /\
  r.1 = Raise (UnicodeDecodeError [Byte.xff]) /\
  trace r.2 = [EvPerformStft 1%positive 3 (make_params 2 1 125 0)] /\
  count_free_result 7 (trace r.2) = 0%nat.
Proof. cbv zeta. repeat split. Qed.

(** *** Instances for the further behaviour *)

Arguments protocol {num} _.
Arguments PyArray2 {num} t rows.
Arguments PyInt {num} z.
Arguments PyFloat {num} x.

(** An engine that succeeds but has no power spectrogram to give. *)
Definition powerless_lib : Lib Z :=
  {| lib_perform_stft := lib_perform_stft small_lib;
     lib_get_power := fun _ _ => (0, fun _ _ => 0) |}.

(** An engine that succeeds and announces [-1] frames. *)
Definition negative_lib : Lib Z :=
  {| lib_perform_stft := fun _ _ _ =>
       (7, {| success := true; spectrogram_data := 8; frame_count := -1;
              frequency_bin_count := 3; frame_time := 1;
              frequency_resolution := 2; message := None |});
     lib_get_power := fun _ _ => (9, fun f b => 10 * f + b) |}.

(** A caller-held float32, C-contiguous array, and a 0-d one. *)
Definition ready_array : ndarray Z :=
  {| nd_dtype := float32; nd_shape := [3%nat]; nd_c_contiguous := true;
     nd_data := [4; 5; 6] |}.

Definition scalar_array : ndarray Z :=
  {| nd_dtype := float32; nd_shape := []; nd_c_contiguous := true;
     nd_data := [4] |}.

Lemma library_call_protocol_witness :
  protocol (trace (run_z small_lib ∅ (PySeq [1; 2; 3]) 2 1 125 0).2) /\
  (forall after,
     trace (run_z small_lib ∅ (PySeq [1; 2; 3]) 2 1 125 0).2
     = [EvPerformStft 1%positive 3 (make_params 2 1 125 0); EvGetPower 7;
        EvFree2dArray 9 2] ++ EvFreeResult 7 :: after ->
     after = []).
Proof.
  destruct (library_call_protocol Z z_cast 0 z_layout small_lib ∅
              (PySeq [1; 2; 3]) 2 1 125 0) as (Hp & Hlast & _).
  split; [exact Hp|]. intros after. apply Hlast.
Defined.

Lemma null_result_raises_witness :
  (run_z null_lib ∅ (PySeq [1; 2; 3]) 2 1 125 0).1
  = Raise (RuntimeError "STFT computation failed").
Proof.
  apply (null_result_raises Z z_cast 0 z_layout null_lib ∅ (PySeq [1; 2; 3])
           2 1 125 0 (np_array_float32 Z z_cast [1; 2; 3]) 3); reflexivity.
Defined.

Lemma null_power_raises_witness :
  (run_z powerless_lib ∅ (PySeq [1; 2; 3]) 2 1 125 0).1
  = Raise (RuntimeError "Failed to get power spectrogram").
Proof.
  apply (null_power_raises Z z_cast 0 z_layout powerless_lib ∅
           (PySeq [1; 2; 3]) 2 1 125 0
           (np_array_float32 Z z_cast [1; 2; 3]) 3); reflexivity.
Defined.

Lemma decodable_message_reported_witness :
  (run_z (failing_lib (Some [Byte.x48; Byte.x69])) ∅ (PySeq [1; 2; 3])
         2 1 125 0).1
  = Raise (RuntimeError "STFT failed: Hi").
Proof.
  apply (decodable_message_reported Z z_cast 0 z_layout
           (failing_lib (Some [Byte.x48; Byte.x69])) ∅ (PySeq [1; 2; 3])
           2 1 125 0 (np_array_float32 Z z_cast [1; 2; 3]) 3
           Byte.x48 [Byte.x69]); reflexivity.
Defined.

Lemma empty_message_reports_unknown_error_witness :
  (run_z (failing_lib (Some [])) ∅ (PySeq [1; 2; 3]) 2 1 125 0).1
  = Raise (RuntimeError "STFT failed: Unknown error").
Proof.
  apply (empty_message_reports_unknown_error Z z_cast 0 z_layout
           (failing_lib (Some [])) ∅ (PySeq [1; 2; 3]) 2 1 125 0
           (np_array_float32 Z z_cast [1; 2; 3]) 3); reflexivity.
Defined.

Lemma negative_dimensions_raise_witness :
  (run_z negative_lib ∅ (PySeq [1; 2; 3]) 2 1 125 0).1
  = Raise (ValueError "negative dimensions are not allowed").
Proof.
  apply (negative_dimensions_raise Z z_cast 0 z_layout negative_lib ∅
           (PySeq [1; 2; 3]) 2 1 125 0
           (np_array_float32 Z z_cast [1; 2; 3]) 3);
    try reflexivity.
  left. reflexivity.
Defined.

Lemma returned_spectrogram_matches_engine_witness :
  exists d rows,
    (run_z small_lib ∅ (PySeq [1; 2; 3]) 2 1 125 0).1 = Ok d /\
    d !! "spectrogram"%string = Some (PyArray2 float32 rows) /\
    rows !! 1%nat ≫= (fun row => row !! 2%nat) = Some 12.
Proof.
  eexists.
  destruct (returned_spectrogram_matches_engine Z z_cast 0 z_layout small_lib ∅
              (PySeq [1; 2; 3]) 2 1 125 0
              (np_array_float32 Z z_cast [1; 2; 3]) 3 _
              eq_refl eq_refl eq_refl)
    as (rows & Hs & _ & _ & _ & _ & _ & _ & _ & _ & Hcell).
  exists rows. split; [reflexivity|]. split; [exact Hs|].
  apply (Hcell 1%nat 2%nat); reflexivity.
Defined.

Lemma engine_receives_the_samples_witness :
  exists a,
    store (run_z small_lib {[ 5%positive := caller_array ]}
                 (PyRef 5%positive) 2 1 125 0).2 !! 6%positive = Some a /\
    nd_data a = [4; 5; 6].
Proof.
  destruct (engine_receives_the_samples Z z_cast 0 z_layout small_lib
              {[ 5%positive := caller_array ]} (PyRef 5%positive) 2 1 125 0
              6%positive 3 (make_params 2 1 125 0))
    as (_ & a & len & Ha & _ & _ & a0 & Ha0 & Hdata).
  - left. reflexivity.
  - exists a. split; [exact Ha|].
    rewrite lookup_singleton_eq in Ha0. injection Ha0 as <-. exact Hdata.
Defined.

Lemma float32_contiguous_is_not_copied_witness :
  store (run_z small_lib {[ 5%positive := ready_array ]}
               (PyRef 5%positive) 2 1 125 0).2
  = {[ 5%positive := ready_array ]}.
Proof.
  apply (float32_contiguous_is_not_copied Z z_cast 0 z_layout small_lib
           {[ 5%positive := ready_array ]} 5%positive ready_array 2 1 125 0);
    reflexivity.
Defined.

Lemma unsized_array_raises_type_error_witness :
  (run_z small_lib {[ 5%positive := scalar_array ]}
         (PyRef 5%positive) 2 1 125 0).1
  = Raise (TypeError "len() of unsized object").
Proof.
  apply (unsized_array_raises_type_error Z z_cast 0 z_layout small_lib
           {[ 5%positive := scalar_array ]} (PyRef 5%positive) 2 1 125 0
           scalar_array); reflexivity.
Defined.

Lemma parameters_are_c_ints_witness :
  window_size Z (make_params 62 31 125 0) = 62 /\
  hop_size Z (make_params 62 31 125 0) = 31 /\
  window_size Z (make_params (62 + 2 ^ 32) 31 125 0) = 62.
Proof.
  destruct (parameters_are_c_ints Z 62 31 125 0)
    as (_ & _ & Hw & Hh & _ & Hk).
  split; [apply Hw; lia|]. split; [apply Hh; lia|].
  specialize (Hk 1 0 0).
  rewrite Z.mul_1_l, !Z.mul_0_l, !Z.add_0_r in Hk. rewrite Hk. apply Hw. lia.
Defined.

Lemma ascii_message_decodes_witness :
  decode_utf8 [Byte.x48; Byte.x69] = Some "Hi"%string.
Proof.
  apply (ascii_message_decodes [Byte.x48; Byte.x69]).
  repeat constructor.
Defined.

End Wrapper.

(** ** CSV output *)

Module Csv.

Definition comma : ascii := ","%char.

Definition newline : ascii := "010"%char.

Fixpoint has_char (c : ascii) (s : string) : bool :=
  match s with
  | EmptyString => false
  | String a rest => Ascii.eqb a c || has_char c rest
  end.

(** [sep.join(fields)]. *)
Fixpoint join (sep : ascii) (fields : list string) : string :=
  match fields with
  | [] => EmptyString
  | [f] => f
  | f :: rest => f +:+ String sep (join sep rest)
  end.

(** [s.split(c)]: the pieces between the occurrences of [c]. *)
Fixpoint split_on (c : ascii) (s : string) : list string :=
  match s with
  | EmptyString => [EmptyString]
  | String a rest =>
      if Ascii.eqb a c then EmptyString :: split_on c rest
      else match split_on c rest with
           | [] => [String a EmptyString]
           | piece :: pieces => String a piece :: pieces
           end
  end.

(** The lines of a text in which every line ends in a newline. *)
Definition lines_of (text : string) : list string :=
  removelast (split_on newline text).

Definition fields_of (line : string) : list string := split_on comma line.

Definition grid_shape {V} (g : list (list V)) : nat * nat :=
  (length g, match g with [] => 0%nat | row :: _ => length row end).

Section Savetxt.

Context {V : Type}.

(** The format applied to each value ([fmt='%.18e'], also numpy's
    default). *)
Variable fmt : V -> string.

(** One row as numpy writes it: the formatted values joined by the
    delimiter. *)
Definition row_text (row : list V) : string := join comma (fmt <$> row).

(** [np.savetxt(fname, X, delimiter=',')] on a two-dimensional [X]: each row
    followed by a newline. *)
Definition savetxt (X : list (list V)) : string :=
  fold_right (fun row text => row_text row +:+ String newline text)
             EmptyString X.

End Savetxt.

Lemma append_empty_r (s : string) : s +:+ EmptyString = s.
Proof.
  induction s as [|a s IH]; [reflexivity|].
  change (String a s +:+ EmptyString) with (String a (s +:+ EmptyString)).
  now rewrite IH.
Qed.

Lemma has_char_append (c : ascii) (s t : string) :
  has_char c (s +:+ t) = has_char c s || has_char c t.
Proof.
  induction s as [|a s IH]; [reflexivity|].
  change (String a s +:+ t) with (String a (s +:+ t)).
  cbn [has_char]. now rewrite IH, orb_assoc.
Qed.

Lemma split_on_nonempty (c : ascii) (s : string) : split_on c s <> [].
Proof.
  induction s as [|a s IH]; simpl; [discriminate|].
  destruct (Ascii.eqb a c); [discriminate|].
  now destruct (split_on c s).
Qed.

(** A prefix free of the separator stays in front of the first piece. *)
Lemma split_on_append (c : ascii) (p s : string) :
  has_char c p = false ->
  split_on c (p +:+ s) =
  match split_on c s with
  | [] => [p]
  | q :: qs => (p +:+ q) :: qs
  end.
Proof.
  pose proof (split_on_nonempty c s) as Hne.
  induction p as [|a p IH]; intros Hp.
  - change (EmptyString +:+ s) with s.
    destruct (split_on c s); [contradiction|reflexivity].
  - cbn [has_char] in Hp. apply orb_false_iff in Hp as [Ha Hp].
    change (String a p +:+ s) with (String a (p +:+ s)).
    cbn [split_on]. rewrite Ha, (IH Hp).
    now destruct (split_on c s).
Qed.

Lemma split_on_clean (c : ascii) (p : string) :
  has_char c p = false -> split_on c p = [p].
Proof.
  intros Hp. rewrite <- (append_empty_r p) at 1.
  rewrite (split_on_append c p EmptyString Hp). cbn [split_on].
  now rewrite append_empty_r.
Qed.

Lemma split_on_terminated (c : ascii) (p s : string) :
  has_char c p = false ->
  split_on c (p +:+ String c s) = p :: split_on c s.
Proof.
  intros Hp. rewrite (split_on_append c p _ Hp). cbn [split_on].
  rewrite Ascii.eqb_refl. now rewrite append_empty_r.
Qed.

Lemma fields_of_join (fields : list string) :
  fields <> [] ->
  Forall (fun f => has_char comma f = false) fields ->
  fields_of (join comma fields) = fields.
Proof.
  unfold fields_of.
  induction fields as [|f rest IH]; intros Hne Hall; [contradiction|].
  apply Forall_cons in Hall as [Hf Hrest].
  destruct rest as [|g rest].
  - simpl. now apply split_on_clean.
  - change (join comma (f :: g :: rest))
      with (f +:+ String comma (join comma (g :: rest))).
    rewrite split_on_terminated by assumption.
    f_equal. apply IH; [discriminate | assumption].
Qed.

Lemma has_char_join (c : ascii) (fields : list string) :
  c <> comma ->
  Forall (fun f => has_char c f = false) fields ->
  has_char c (join comma fields) = false.
Proof.
  intros Hc.
  induction fields as [|f rest IH]; intros Hall; [reflexivity|].
  apply Forall_cons in Hall as [Hf Hrest].
  destruct rest as [|g rest]; [assumption|].
  change (join comma (f :: g :: rest))
    with (f +:+ String comma (join comma (g :: rest))).
  rewrite has_char_append, Hf. cbn [has_char orb].
  rewrite (IH Hrest).
  destruct (Ascii.eqb comma c) eqn:E; [|reflexivity].
  apply Ascii.eqb_eq in E. congruence.
Qed.

Section SavetxtFacts.

Context {V : Type} (fmt : V -> string).

Hypothesis fmt_no_comma : forall v, has_char comma (fmt v) = false.
Hypothesis fmt_no_newline : forall v, has_char newline (fmt v) = false.

Lemma fields_of_row_text (row : list V) :
  row <> [] -> fields_of (row_text fmt row) = fmt <$> row.
Proof.
  intros Hne. unfold row_text. apply fields_of_join.
  - now destruct row.
  - apply Forall_fmap, Forall_forall. intros v _. apply fmt_no_comma.
Qed.

Lemma row_text_one_line (row : list V) :
  has_char newline (row_text fmt row) = false.
Proof.
  unfold row_text. apply has_char_join; [discriminate|].
  apply Forall_fmap, Forall_forall. intros v _. apply fmt_no_newline.
Qed.

Lemma lines_of_savetxt (X : list (list V)) :
  lines_of (savetxt fmt X) = row_text fmt <$> X.
Proof.
  unfold lines_of.
  induction X as [|row X IH]; [reflexivity|].
  change (savetxt fmt (row :: X))
    with (row_text fmt row +:+ String newline (savetxt fmt X)).
  rewrite split_on_terminated by apply row_text_one_line.
  rewrite fmap_cons, <- IH.
  pose proof (split_on_nonempty newline (savetxt fmt X)).
  now destruct (split_on newline (savetxt fmt X)).
Qed.

End SavetxtFacts.

(** *** The two files *)

(** Cell (bin [k], segment [s]) of the grid generate_scipy_stft.py saves. *)
Definition oracle_cell (x : list R) (k s : nat) : R :=
  Decibel.db_of (Decibel.np_abs
    (let w := Spectral.window_of Spectral.hann_periodic 62 in
     let c := Spectral.dft_bin
                (Spectral.windowed w (Spectral.frame_at x (s * (62 - (62 - 31))) 62))
                k in
     (c.1 * sqrt (1 / Spectral.sum_list w ^ 2),
      c.2 * sqrt (1 / Spectral.sum_list w ^ 2))%R)).

Lemma oracle_db_rows (x : list R) :
  Spectral.oracle_db x =
  (fun k : nat =>
     oracle_cell x k <$> seq 0 (Spectral.scipy_nseg (length x) 62 (62 - 31)))
    <$> seq 0 (62 / 2 + 1).
Proof.
  unfold Spectral.oracle_db, Decibel.db, Decibel.magnitude, Decibel.grid_map,
    Spectral.scipy_stft. cbv zeta.
  rewrite <- !list_fmap_compose. apply list_fmap_ext. intros _ k _.
  unfold compose. rewrite <- !list_fmap_compose. reflexivity.
Qed.

Lemma grid_shape_rows {V} (F : nat -> nat -> V) (rows cols : nat) :
  (0 < rows)%nat ->
  grid_shape ((fun r : nat => F r <$> seq 0 cols) <$> seq 0 rows)
  = (rows, cols).
Proof.
  intros Hr. unfold grid_shape. rewrite length_fmap, length_seq.
  destruct rows as [|rows]; [lia|].
  cbn [seq fmap list_fmap]. now rewrite length_fmap, length_seq.
Qed.

(** The cells the engine's decibel grid offers for the repository's run,
    read the way the wrapper reads [power_ptr[frame][bin]]. *)
Definition fixed_run_power (f b : Z) : R :=
  default 0%R
    (Decibel.cell
       (Spectral.engine_db (Spectral.window_of Spectral.hann_sym 62)
                           Spectral.test_signal 62 31)
       (Z.to_nat f) (Z.to_nat b)).

(** What each script hands to [np.savetxt] in the repository's run. *)
Definition wrapper_saved_grid : list (list R) :=
  Wrapper.spectrogram_of R fixed_run_power
    (Framer.frame_count 250 62 31) (Framer.frequency_bin_count 62).

Definition oracle_saved_grid : list (list R) :=
  Spectral.oracle_db Spectral.test_signal.

Lemma test_signal_length : length Spectral.test_signal = 250%nat.
Proof. unfold Spectral.test_signal. now rewrite length_fmap, length_seq. Qed.

(** C5, as stated, fails: in the repository's run the wrapper saves 7 rows
    of 32 values (one row per frame) and the reference script saves 32 rows
    of 7 values (one row per frequency bin). *)
Lemma csv_orientation_differs :
  grid_shape wrapper_saved_grid = (7%nat, 32%nat) /\
  grid_shape oracle_saved_grid = (32%nat, 7%nat) /\
  grid_shape wrapper_saved_grid <> grid_shape oracle_saved_grid.
Proof.
  assert (Hw : grid_shape wrapper_saved_grid = (7%nat, 32%nat)).
  { unfold wrapper_saved_grid, Wrapper.spectrogram_of.
    change (Framer.frame_count 250 62 31) with 7%Z.
    change (Framer.frequency_bin_count 62) with 32%Z.
    rewrite grid_shape_rows by (vm_compute; lia). reflexivity. }
  assert (Ho : grid_shape oracle_saved_grid = (32%nat, 7%nat)).
  { unfold oracle_saved_grid. rewrite oracle_db_rows, test_signal_length.
    rewrite grid_shape_rows by (vm_compute; lia). reflexivity. }
  split; [exact Hw|]. split; [exact Ho|].
  rewrite Hw, Ho. discriminate.
Qed.

Section Layout.

Context {num : Type} (fmt_w : num -> string) (fmt_o : R -> string).

Hypothesis fmt_w_no_comma : forall v, has_char comma (fmt_w v) = false.
Hypothesis fmt_w_no_newline : forall v, has_char newline (fmt_w v) = false.
Hypothesis fmt_o_no_comma : forall v, has_char comma (fmt_o v) = false.
Hypothesis fmt_o_no_newline : forall v, has_char newline (fmt_o v) = false.

(** C5, amended.  Both files hold one row per line with comma-separated
    values.  In the wrapper's file line [f] lists the bins of frame [f]
    (rows are time frames); in the reference file line [k] lists the
    segments of bin [k] (rows are frequency bins). *)
Theorem csv_rows_are_frames_or_bins
    (power : Z -> Z -> num) (frames bins : Z) (x : list R) :
  lines_of (savetxt fmt_w (Wrapper.spectrogram_of num power frames bins))
  = (fun f : nat =>
       join comma ((fun b : nat => fmt_w (power (Z.of_nat f) (Z.of_nat b)))
                     <$> seq 0 (Z.to_nat bins)))
      <$> seq 0 (Z.to_nat frames) /\
  (forall (f : nat) (line : string),
     (0 < bins)%Z ->
     lines_of (savetxt fmt_w (Wrapper.spectrogram_of num power frames bins))
       !! f = Some line ->
     fields_of line
     = (fun b : nat => fmt_w (power (Z.of_nat f) (Z.of_nat b)))
         <$> seq 0 (Z.to_nat bins)) /\
  lines_of (savetxt fmt_o (Spectral.oracle_db x))
  = (fun k : nat =>
       join comma ((fun s : nat => fmt_o (oracle_cell x k s))
                     <$> seq 0 (Spectral.scipy_nseg (length x) 62 (62 - 31))))
      <$> seq 0 (62 / 2 + 1) /\
  (forall (k : nat) (line : string),
     (0 < Spectral.scipy_nseg (length x) 62 (62 - 31))%nat ->
     lines_of (savetxt fmt_o (Spectral.oracle_db x)) !! k = Some line ->
     fields_of line
     = (fun s : nat => fmt_o (oracle_cell x k s))
         <$> seq 0 (Spectral.scipy_nseg (length x) 62 (62 - 31))).
Proof.
  assert (Hwl :
    lines_of (savetxt fmt_w (Wrapper.spectrogram_of num power frames bins))
    = (fun f : nat =>
         join comma ((fun b : nat => fmt_w (power (Z.of_nat f) (Z.of_nat b)))
                       <$> seq 0 (Z.to_nat bins)))
        <$> seq 0 (Z.to_nat frames)).
  { rewrite lines_of_savetxt by assumption.
    unfold Wrapper.spectrogram_of, row_text.
    rewrite <- list_fmap_compose. apply list_fmap_ext. intros _ f _.
    unfold compose. now rewrite <- list_fmap_compose. }
  assert (Hol :
    lines_of (savetxt fmt_o (Spectral.oracle_db x))
    = (fun k : nat =>
         join comma ((fun s : nat => fmt_o (oracle_cell x k s))
                       <$> seq 0 (Spectral.scipy_nseg (length x) 62 (62 - 31))))
        <$> seq 0 (62 / 2 + 1)).
  { rewrite lines_of_savetxt by assumption.
    rewrite oracle_db_rows. unfold row_text.
    rewrite <- list_fmap_compose. apply list_fmap_ext. intros _ k _.
    unfold compose. now rewrite <- list_fmap_compose. }
  split; [exact Hwl|]. split; [|split; [exact Hol|]].
  - intros f line Hb. rewrite Hwl, list_lookup_fmap.
    intros Hline. apply fmap_Some in Hline as (f' & Hf & ->).
    apply lookup_seq in Hf as [-> _]. cbn [Nat.add].
    apply fields_of_join.
    + destruct (Z.to_nat bins) eqn:E; [lia|discriminate].
    + apply Forall_fmap, Forall_forall. intros b _. apply fmt_w_no_comma.
  - intros k line Hs. rewrite Hol, list_lookup_fmap.
    intros Hline. apply fmap_Some in Hline as (k' & Hk & ->).
    apply lookup_seq in Hk as [-> _]. cbn [Nat.add].
    apply fields_of_join.
    + destruct (Spectral.scipy_nseg (length x) 62 (62 - 31)); [lia|discriminate].
    + apply Forall_fmap, Forall_forall. intros s _. apply fmt_o_no_comma.
Qed.

End Layout.

(** *** Reading a saved file back *)

Section RoundTrip.

Context {V : Type} (fmt : V -> string).

Hypothesis fmt_no_comma : forall v, has_char comma (fmt v) = false.
Hypothesis fmt_no_newline : forall v, has_char newline (fmt v) = false.

(** Splitting the saved text into lines and each line at the commas gives
    the grid of formatted values back, row by row, provided no row is empty;
    the text has as many lines as the grid has rows, and an empty grid gives
    an empty file. *)
Theorem savetxt_round_trip (X : list (list V)) :
  savetxt fmt [] = EmptyString /\
  length (lines_of (savetxt fmt X)) = length X /\
  (Forall (fun row => row <> []) X ->
   fields_of <$> lines_of (savetxt fmt X) = (fun row => fmt <$> row) <$> X).
Proof.
  split; [reflexivity|].
  rewrite lines_of_savetxt by assumption.
  split; [apply length_fmap|].
  intros Hrows. rewrite <- list_fmap_compose.
  apply Forall_fmap_ext_1.
  eapply Forall_impl; [exact Hrows|].
  intros row Hne. cbn. now apply fields_of_row_text.
Qed.

End RoundTrip.

(** A two-valued format, enough to exercise the layout. *)
Definition fmt_bit (z : Z) : string :=
  if (z =? 0)%Z then "0"%string else "1"%string.

Definition fmt_mark (r : R) : string := "x"%string.

Lemma csv_rows_are_frames_or_bins_witness :
  lines_of (savetxt fmt_bit (Wrapper.spectrogram_of Z (fun f b => f) 2 3))
  = ["0,0,0"; "1,1,1"]%string.
Proof.
  assert (Hc : forall v, has_char comma (fmt_bit v) = false)
    by (intros v; unfold fmt_bit; now destruct (v =? 0)%Z).
  assert (Hn : forall v, has_char newline (fmt_bit v) = false)
    by (intros v; unfold fmt_bit; now destruct (v =? 0)%Z).
  destruct (csv_rows_are_frames_or_bins fmt_bit fmt_mark Hc Hn
              (fun _ => eq_refl) (fun _ => eq_refl) (fun f b => f) 2 3 [])
    as [Hlines _].
  rewrite Hlines. reflexivity.
Defined.

Lemma savetxt_round_trip_witness :
  fields_of <$> lines_of (savetxt fmt_bit [[0; 1]; [1; 1]]%Z)
  = [["0"; "1"]; ["1"; "1"]]%string.
Proof.
  assert (Hc : forall v, has_char comma (fmt_bit v) = false)
    by (intros v; unfold fmt_bit; now destruct (v =? 0)%Z).
  assert (Hn : forall v, has_char newline (fmt_bit v) = false)
    by (intros v; unfold fmt_bit; now destruct (v =? 0)%Z).
  destruct (savetxt_round_trip fmt_bit Hc Hn [[0; 1]; [1; 1]]%Z)
    as (_ & _ & Hrt).
  rewrite Hrt; [reflexivity|].
  repeat constructor; discriminate.
Defined.

End Csv.

(** ** Loading the library, the module-level function and the test run *)

Module Script.

Import Wrapper.

(** What a script can end in: an exception of the method, or one of the
    three that loading the library and reading the dictionary can raise. *)
Inductive script_exn : Type :=
  | WrapperError (e : exn)
  | OSError (msg : string)
  | AttributeError (msg : string)
  | KeyError (key : string).

(** [str(e)]. *)
Definition str_of_exn (e : script_exn) : string :=
  match e with
  | WrapperError e => exn_message e
  | OSError msg | AttributeError msg => msg
  | KeyError key => "'" +:+ key +:+ "'"
  end.

(** The functions [_setup_function_signatures] looks up, in the order of
    lines 53-69. *)
Definition required_symbols : list string :=
  ["perform_stft"; "stft_get_power_spectrogram_db"; "stft_free_result";
   "stft_free_2d_array"]%string.

Section Script.

Variable num : Type.
Variable cast : dtype -> num -> num.
Variable zero : num.
Variable astype_c_contiguous : ndarray num -> bool.

(** [fmt='%.18e'] on one value. *)
Variable fmt : num -> string.

(** The text of the [OSError] the loader raises for a path it cannot load,
    and of the [AttributeError] for a symbol a library does not export. *)
Variable dlerror : string -> string.
Variable dlsym_error : string -> string -> string.

(** A shared object the loader can open: the symbols it exports and the
    engine behind them. *)
Record shared_object : Type := {
  exports : list string;
  engine : Lib num
}.

(** A value interpolated into a printed line; its decimal rendering is not
    modelled. *)
Inductive shown : Type :=
  | ShownValue (v : pyval num)
  | ShownShape (v : pyval num).

Inductive printed : Type :=
  | Line (text : string)
  | LineWith (prefix : string) (value : shown).

(** Standard output, the files written, and the interpreter state of the
    wrapper. *)
Record world : Type := {
  stdout : list printed;
  files : gmap string string;
  interp : state num
}.

Definition print (p : printed) (w : world) : world :=
  {| stdout := stdout w ++ [p]; files := files w; interp := interp w |}.

Definition with_interp (st : state num) (w : world) : world :=
  {| stdout := stdout w; files := files w; interp := st |}.

(** Lines 49-69: the first attribute access on a symbol the library lacks
    raises [AttributeError]. *)
Definition setup_function_signatures (lib_path : string) (so : shared_object) :
  option script_exn :=
  (fun name => AttributeError (dlsym_error lib_path name))
    <$> List.find (fun name => negb (bool_decide (name ∈ exports so)))
                  required_symbols.

(** Lines 37-47: [STFTWrapper(lib_path)]. *)
Definition STFTWrapper_init (libs : gmap string shared_object)
    (lib_path : string) (w : world) : (Lib num + script_exn) * world :=
  match libs !! lib_path with
  | None =>
      (inr (OSError (dlerror lib_path)),
       print (Line "Please compile first: gcc -shared -fPIC -o libstft.so stft.c kiss_fft.c -lm")
             (print (Line ("Failed to load " +:+ lib_path)) w))
  | Some so =>
      match setup_function_signatures lib_path so with
      | Some e => (inr e, w)
      | None => (inl (engine so), w)
      end
  end.

(** Lines 147-163: the module-level [perform_stft]. *)
Definition perform_stft_function (libs : gmap string shared_object)
    (signal : signal_arg num) (window_size hop_size : Z) (sample_rate : num)
    (window_type : Z) (lib_path : string) (w : world) :
  (gmap string (pyval num) + script_exn) * world :=
  match STFTWrapper_init libs lib_path w with
  | (inr e, w') => (inr e, w')
  | (inl lib, w') =>
      match perform_stft num cast zero astype_c_contiguous lib signal
                         window_size hop_size sample_rate window_type
                         (interp w') with
      | (Ok d, st) => (inl d, with_interp st w')
      | (Raise e, st) => (inr (WrapperError e), with_interp st w')
      end
  end.

(** The float64 values of [t] and of
    [sin(2 pi 10 t) + 0.5 sin(2 pi 20 t)] at sample [n], and the sample rate
    [125.0]. *)
Variable time : nat -> num.
Variable sample : nat -> num.
Variable fs : num.

(** Line 172: [t = np.arange(0, duration, 1/fs)]. *)
Definition time_array : ndarray num :=
  {| nd_dtype := float64;
     nd_shape := [Z.to_nat (Framer.arange_len 0 2 (1 / 125))];
     nd_c_contiguous := true;
     nd_data := time <$> seq 0 (Z.to_nat (Framer.arange_len 0 2 (1 / 125))) |}.

(** Lines 170-173: the float64 signal, one sample per element of
    [np.arange(0, 2.0, 1/125)]. *)
Definition signal_float64 : ndarray num :=
  {| nd_dtype := float64;
     nd_shape := [Z.to_nat (Framer.arange_len 0 2 (1 / 125))];
     nd_c_contiguous := true;
     nd_data := sample <$> seq 0 (Z.to_nat (Framer.arange_len 0 2 (1 / 125))) |}.

(** Line 174. *)
Definition signal_float32 : ndarray num :=
  astype_float32 num cast astype_c_contiguous signal_float64.

(** [np.savetxt(fname, X, delimiter=',', fmt='%.18e')]. *)
Definition np_savetxt (fname : string) (X : pyval num) (w : world) :
  option script_exn * world :=
  match X with
  | PyArray2 _ rows =>
      (None, {| stdout := stdout w;
                files := <[fname := Csv.savetxt fmt rows]> (files w);
                interp := interp w |})
  | _ =>
      (Some (WrapperError
               (ValueError "Expected 1D or 2D array, got 0D array instead")),
       w)
  end.

(** Line 187. *)
Definition report (e : script_exn) (w : world) : world :=
  print (Line ("✗ STFT failed: " +:+ str_of_exn e)) w.

(** Lines 176-187, with [signal] at location [l]. *)
Definition main_try (libs : gmap string shared_object) (l : loc) (w : world) :
  world :=
  match perform_stft_function libs (PyRef l) 62 31 fs 0 "./libstft.so" w with
  | (inr e, w1) => report e w1
  | (inl result, w1) =>
      match result !! "spectrogram"%string with
      | None => report (KeyError "spectrogram") w1
      | Some sp =>
          let w2 := print (LineWith "✓ STFT successful: " (ShownShape sp)) w1 in
          match result !! "frame_count"%string with
          | None => report (KeyError "frame_count") w2
          | Some fc =>
              let w3 := print (LineWith "Frame count: " (ShownValue fc)) w2 in
              match result !! "frequency_bin_count"%string with
              | None => report (KeyError "frequency_bin_count") w3
              | Some bc =>
                  let w4 :=
                    print (LineWith "Frequency bins: " (ShownValue bc)) w3 in
                  match np_savetxt "stft_result_python.csv" sp w4 with
                  | (Some e, w5) => report e w5
                  | (None, w5) =>
                      print (Line "✓ CSV file saved as stft_result_python.csv")
                            w5
                  end
              end
          end
      end
  end.

(** Lines 167-174: the banner, then [t] and [signal] as new objects.  The
    float64 signal of line 173 is dropped when line 174 rebinds the name. *)
Definition main_setup (w : world) : loc * world :=
  let w0 := print (Line "Testing ctypes wrapper...") w in
  let lt := fresh (dom (store (interp w0))) in
  let h1 := <[lt := time_array]> (store (interp w0)) in
  let l := fresh (dom h1) in
  (l, with_interp {| store := <[l := signal_float32]> h1;
                     trace := trace (interp w0) |} w0).

(** The script run as a program, lines 165-187. *)
Definition main (libs : gmap string shared_object) (w : world) : world :=
  main_try libs (main_setup w).1 (main_setup w).2.

(** *** Loading and calling *)

Definition all_exported (so : shared_object) : Prop :=
  Forall (fun name => name ∈ exports so) required_symbols.

Lemma find_nothing {A} (f : A -> bool) (l : list A) :
  (forall x, In x l -> f x = false) -> List.find f l = None.
Proof.
  induction l as [|a l IH]; intros Hf; [reflexivity|].
  cbn [List.find]. rewrite (Hf a (or_introl eq_refl)).
  apply IH. intros x Hx. apply Hf. now right.
Qed.

Lemma setup_ok (lib_path : string) (so : shared_object) :
  all_exported so -> setup_function_signatures lib_path so = None.
Proof.
  intros Hall. unfold setup_function_signatures.
  rewrite find_nothing; [reflexivity|].
  intros name Hin. apply negb_false_iff, bool_decide_eq_true.
  unfold all_exported in Hall. rewrite Forall_forall in Hall.
  apply Hall. now apply list_elem_of_In.
Qed.

Lemma setup_missing (lib_path : string) (so : shared_object) :
  ~ all_exported so ->
  exists missing,
    In missing required_symbols /\ (missing ∉ exports so) /\
    setup_function_signatures lib_path so
    = Some (AttributeError (dlsym_error lib_path missing)).
Proof.
  intros Hnot. unfold setup_function_signatures.
  destruct (List.find _ required_symbols) as [missing|] eqn:Hfind.
  - apply List.find_some in Hfind as [Hin Hout].
    exists missing. split; [exact Hin|]. split; [|reflexivity].
    apply negb_true_iff, bool_decide_eq_false in Hout. exact Hout.
  - exfalso. apply Hnot. unfold all_exported. apply Forall_forall.
    intros name Hin. apply list_elem_of_In in Hin.
    pose proof (List.find_none _ _ Hfind name Hin) as Hf.
    now apply negb_false_iff, bool_decide_eq_true in Hf.
Qed.

(** The module-level function builds a wrapper, then calls the method.
    - When the loader cannot open the path: two hint lines are printed and
      the loader's [OSError] is raised.
    - When the library lacks one of the four functions: [AttributeError]
      for a function it lacks, and nothing is printed.
    In both cases the signal is not converted and no library call is made.
    - Otherwise the outcome is the method's, on the library's engine, and
      nothing is printed or written. *)
Theorem function_loads_then_calls (libs : gmap string shared_object)
    (signal : signal_arg num) (ws hs : Z) (sr : num) (wt : Z)
    (lib_path : string) (w : world) :
  (libs !! lib_path = None ->
   perform_stft_function libs signal ws hs sr wt lib_path w
   = (inr (OSError (dlerror lib_path)),
      {| stdout := stdout w ++
           [Line ("Failed to load " +:+ lib_path);
            Line "Please compile first: gcc -shared -fPIC -o libstft.so stft.c kiss_fft.c -lm"];
         files := files w; interp := interp w |})) /\
  (forall so,
     libs !! lib_path = Some so -> ~ all_exported so ->
     exists missing,
       In missing required_symbols /\ (missing ∉ exports so) /\
       perform_stft_function libs signal ws hs sr wt lib_path w
       = (inr (AttributeError (dlsym_error lib_path missing)), w)) /\
  (forall so,
     libs !! lib_path = Some so -> all_exported so ->
     let r := perform_stft num cast zero astype_c_contiguous (engine so)
                           signal ws hs sr wt (interp w) in
     perform_stft_function libs signal ws hs sr wt lib_path w
     = (match r.1 with
        | Ok d => inl d
        | Raise e => inr (WrapperError e)
        end,
        {| stdout := stdout w; files := files w; interp := r.2 |})).
Proof.
  unfold perform_stft_function, STFTWrapper_init.
  split; [|split].
  - intros ->. unfold print. cbn [stdout files interp].
    now rewrite <- app_assoc.
  - intros so -> Hnot.
    destruct (setup_missing lib_path so Hnot) as (missing & Hin & Hout & ->).
    eauto.
  - intros so -> Hall. rewrite (setup_ok lib_path so Hall). cbv zeta.
    destruct (perform_stft _ _ _ _ _ _ _ _ _ _ _) as [[d|e] st];
      reflexivity.
Qed.

(** *** The test run *)

Lemma perform_stft_returns_result_dict (lib : Lib num)
    (signal : signal_arg num) (ws hs : Z) (sr : num) (wt : Z)
    (st st' : state num) (d : gmap string (pyval num)) :
  perform_stft num cast zero astype_c_contiguous lib signal ws hs sr wt st
  = (Ok d, st') ->
  exists rows res, d = result_dict num rows res.
Proof.
  intros Hrun.
  pose proof (perform_stft_spec num cast zero astype_c_contiguous
                lib signal ws hs sr wt st) as Hspec.
  destruct (engine_view _ _ _ _ _) as [a|].
  - destruct Hspec as (l & st1 & _ & _ & _ & _ & Heq).
    rewrite Hrun in Heq.
    destruct (py_len num a) as [n|]; [|discriminate].
    cbv zeta in Heq. injection Heq as Hd _. symmetry in Hd.
    apply engine_paths_ok in Hd as (_ & _ & _ & ->). eauto.
  - rewrite Hrun in Hspec. discriminate.
Qed.

(** The call the test run makes, in the world the set-up leaves. *)
Definition main_call (libs : gmap string shared_object) (w : world) :
  (gmap string (pyval num) + script_exn) * world :=
  perform_stft_function libs (PyRef (main_setup w).1) 62 31 fs 0
                        "./libstft.so" (main_setup w).2.

(** The test run writes [stft_result_python.csv] exactly when its call
    returns: then the file holds the returned spectrogram and the four
    success lines follow the banner; when the call raises, nothing is
    written and one line reports the exception.  No dictionary look-up of
    the script fails. *)
Theorem main_saves_iff_call_returns (libs : gmap string shared_object)
    (w : world) :
  match (main_call libs w).1 with
  | inl result =>
      exists rows fc bc,
        result !! "spectrogram"%string = Some (PyArray2 float32 rows) /\
        result !! "frame_count"%string = Some (PyInt fc) /\
        result !! "frequency_bin_count"%string = Some (PyInt bc) /\
        files (main libs w)
        = <["stft_result_python.csv"%string := Csv.savetxt fmt rows]> (files w) /\
        stdout (main libs w)
        = stdout w ++
          [Line "Testing ctypes wrapper...";
           LineWith "✓ STFT successful: " (ShownShape (PyArray2 float32 rows));
           LineWith "Frame count: " (ShownValue (PyInt fc));
           LineWith "Frequency bins: " (ShownValue (PyInt bc));
           Line "✓ CSV file saved as stft_result_python.csv"]
  | inr e =>
      files (main libs w) = files w /\
      stdout (main libs w)
      = stdout (main_call libs w).2
        ++ [Line ("✗ STFT failed: " +:+ str_of_exn e)]
  end.
Proof.
  unfold main, main_try. fold (main_call libs w).
  assert (Hfiles : files (main_call libs w).2 = files w /\
                   (forall d, (main_call libs w).1 = inl d ->
                      stdout (main_call libs w).2
                      = stdout w ++ [Line "Testing ctypes wrapper..."] /\
                      exists rows res, d = result_dict num rows res)).
  { unfold main_call, perform_stft_function, STFTWrapper_init.
    destruct (libs !! "./libstft.so"%string) as [so|]; [|split; [reflexivity|discriminate]].
    destruct (setup_function_signatures _ so); [split; [reflexivity|discriminate]|].
    destruct (perform_stft _ _ _ _ _ _ _ _ _ _ _) as [[d|e] st] eqn:Hrun;
      (split; [reflexivity|]); [|discriminate].
    intros d' [= <-]. split; [reflexivity|].
    eapply perform_stft_returns_result_dict. exact Hrun. }
  destruct Hfiles as [Hfiles Hok].
  destruct (main_call libs w) as [[d|e] w1]; cbn [fst snd] in *.
  - destruct (Hok d eq_refl) as (Hout & rows & res & ->).
    exists rows, (frame_count num res), (frequency_bin_count num res).
    unfold result_dict.
    rewrite lookup_insert_eq.
    rewrite (lookup_insert_ne _ "spectrogram"%string "frame_count"%string)
      by discriminate.
    rewrite lookup_insert_eq.
    rewrite (lookup_insert_ne _ "spectrogram"%string
               "frequency_bin_count"%string) by discriminate.
    rewrite (lookup_insert_ne _ "frame_count"%string
               "frequency_bin_count"%string) by discriminate.
    rewrite lookup_insert_eq.
    cbn [np_savetxt print stdout files interp].
    repeat (split; [reflexivity|]).
    split; [now rewrite Hfiles|].
    rewrite Hout, <- !app_assoc. reflexivity.
  - unfold report, print. cbn [stdout files]. auto.
Qed.

Lemma main_try_interp (libs : gmap string shared_object) (l : loc) (w : world) :
  interp (main_try libs l w)
  = interp (perform_stft_function libs (PyRef l) 62 31 fs 0 "./libstft.so" w).2.
Proof.
  unfold main_try.
  destruct (perform_stft_function _ _ _ _ _ _ _ _) as [[d|e] w1];
    [|reflexivity]. cbn [snd].
  destruct (d !! "spectrogram"%string) as [sp|]; [|reflexivity].
  destruct (d !! "frame_count"%string); [|reflexivity].
  destruct (d !! "frequency_bin_count"%string); [|reflexivity].
  now destruct sp.
Qed.

Lemma engine_paths_head (l : loc) (n : Z) (params : STFTParameters num)
    (rp : ptr) (res : STFTResult num) (pp : ptr) (power : Z -> Z -> num) :
  exists evs,
    (engine_paths num l n params rp res pp power).2
    = EvPerformStft l n params :: evs.
Proof.
  unfold engine_paths.
  destruct (is_null rp); [eauto|].
  destruct (negb (success num res)).
  { destruct (decode_message (message num res)); eauto. }
  destruct (is_null pp); [eauto|].
  destruct ((frame_count num res <? 0)%Z || (frequency_bin_count num res <? 0)%Z);
    eauto.
Qed.

(** The test run converts its signal to float32 before the call (line 174),
    so the wrapper makes no copy of the signal: the conversions of lines
    86-94 add no array to the run's objects, and the engine is called on the
    run's own array of 250 float32 samples, with length 250, window 62 and
    hop 31.  (The copy [astype] makes of a one-dimensional array is
    C-contiguous.) *)
Theorem main_hands_over_its_own_array (libs : gmap string shared_object)
    (so : shared_object) (w : world) :
  libs !! "./libstft.so"%string = Some so ->
  all_exported so ->
  astype_c_contiguous signal_float64 = true ->
  let l := (main_setup w).1 in
  store (interp (main_setup w).2) !! l = Some signal_float32 /\
  store (interp w) !! l = None /\
  store (interp (main libs w)) = store (interp (main_setup w).2) /\
  nd_data signal_float32 = cast float32 <$> (sample <$> seq 0 250) /\
  exists evs,
    trace (interp (main libs w))
    = trace (interp w) ++ EvPerformStft l 250 (make_params 62 31 fs 0) :: evs.
Proof.
  intros Hlib Hall Hflag l.
  assert (Hl : store (interp (main_setup w).2) !! l = Some signal_float32)
    by apply lookup_insert_eq.
  split; [exact Hl|].
  split.
  { pose proof (is_fresh (dom (<[fresh (dom (store (interp w))) := time_array]>
                                 (store (interp w))))) as Hfresh.
    apply not_elem_of_dom in Hfresh.
    apply lookup_insert_None in Hfresh as [Hfresh _]. exact Hfresh. }
  split; [|split; [reflexivity|]];
    unfold main; rewrite main_try_interp;
    unfold perform_stft_function, STFTWrapper_init;
    rewrite Hlib, (setup_ok "./libstft.so" so Hall);
    unfold perform_stft;
    (assert (Hm : marshal num cast astype_c_contiguous
                    (PyRef (main_setup w).1) (interp (main_setup w).2)
                  = (Ok ((main_setup w).1, signal_float32, 250%Z),
                     interp (main_setup w).2));
     [rewrite (marshal_fast_path num cast astype_c_contiguous
                 (main_setup w).1 signal_float32);
        [reflexivity | exact Hl | reflexivity | exact Hflag]|]);
    rewrite (bind_ok _ _ _ _ _ _ Hm); cbn [fst snd];
    rewrite call_engine_paths; cbv zeta.
  - destruct (engine_paths _ _ _ _ _ _ _ _).1; reflexivity.
  - destruct (engine_paths_head (main_setup w).1 250
                (make_params 62 31 fs 0)
                (lib_perform_stft (engine so) (nd_data signal_float32) 250
                                  (make_params 62 31 fs 0)).1
                (lib_perform_stft (engine so) (nd_data signal_float32) 250
                                  (make_params 62 31 fs 0)).2
                (lib_get_power (engine so)
                   (lib_perform_stft (engine so) (nd_data signal_float32) 250
                                     (make_params 62 31 fs 0)).1
                   (lib_perform_stft (engine so) (nd_data signal_float32) 250
                                     (make_params 62 31 fs 0)).2).1
                (lib_get_power (engine so)
                   (lib_perform_stft (engine so) (nd_data signal_float32) 250
                                     (make_params 62 31 fs 0)).1
                   (lib_perform_stft (engine so) (nd_data signal_float32) 250
                                     (make_params 62 31 fs 0)).2).2)
      as [evs Hevs].
    exists evs.
    destruct (engine_paths _ _ _ _ _ _ _ _).1; cbn [snd interp with_interp log trace];
      rewrite Hevs; reflexivity.
Qed.

End Script.

Arguments Line {num} text.
Arguments LineWith {num} prefix value.
Arguments stdout {num} w.
Arguments files {num} w.
Arguments interp {num} w.

(** *** A small instance *)

Local Open Scope Z_scope.

Definition z_dlerror (lib_path : string) : string :=
  lib_path +:+ ": cannot open shared object file".

Definition z_dlsym_error (lib_path name : string) : string :=
  lib_path +:+ ": undefined symbol: " +:+ name.

Definition z_sample (n : nat) : Z := Z.of_nat n.

Definition complete_object : shared_object Z :=
  {| exports := required_symbols; engine := small_lib |}.

Definition partial_object : shared_object Z :=
  {| exports := ["perform_stft"; "stft_free_result"]%string;
     engine := small_lib |}.

Definition empty_world : world Z :=
  {| stdout := []; files := ∅; interp := {| store := ∅; trace := [] |} |}.

Definition function_z :=
  perform_stft_function Z z_cast 0 z_layout z_dlerror z_dlsym_error.

Definition main_z :=
  main Z z_cast 0 z_layout Csv.fmt_bit z_dlerror z_dlsym_error
       z_sample z_sample 125.

Lemma complete_object_exports : all_exported Z complete_object.
Proof. unfold all_exported. apply Forall_forall. intros name Hin. exact Hin. Qed.

Example main_small_run :
  files (main_z {[ "./libstft.so"%string := complete_object ]} empty_world)
  = {[ "stft_result_python.csv"%string :=
         ("0,1,1" +:+ String Csv.newline ("1,1,1" +:+ String Csv.newline ""))%string ]}.
Proof. vm_compute. reflexivity. Qed.

Lemma function_loads_then_calls_witness :
  (function_z ∅ (PySeq [1; 2; 3]) 2 1 125 0 "./libstft.so" empty_world).1
    = inr (OSError "./libstft.so: cannot open shared object file") /\
  (exists missing,
     (function_z {[ "./libstft.so"%string := partial_object ]}
                 (PySeq [1; 2; 3]) 2 1 125 0 "./libstft.so" empty_world).1
     = inr (AttributeError (z_dlsym_error "./libstft.so" missing))) /\
  (exists d,
     (function_z {[ "./libstft.so"%string := complete_object ]}
                 (PySeq [1; 2; 3]) 2 1 125 0 "./libstft.so" empty_world).1
     = inl d).
Proof.
  split; [|split].
  - destruct (function_loads_then_calls Z z_cast 0 z_layout
                z_dlerror z_dlsym_error ∅ (PySeq [1; 2; 3]) 2 1 125 0
                "./libstft.so" empty_world) as (Hnone & _ & _).
    unfold function_z. rewrite Hnone; reflexivity.
  - destruct (function_loads_then_calls Z z_cast 0 z_layout
                z_dlerror z_dlsym_error
                {[ "./libstft.so"%string := partial_object ]}
                (PySeq [1; 2; 3]) 2 1 125 0
                "./libstft.so" empty_world) as (_ & Hmiss & _).
    destruct (Hmiss partial_object) as (missing & _ & _ & Heq).
    + apply lookup_singleton_eq.
    + intros Hall. unfold all_exported in Hall.
      rewrite Forall_forall in Hall.
      specialize (Hall "stft_free_2d_array"%string).
      assert (Hin : "stft_free_2d_array"%string
                    ∈ exports Z partial_object)
        by (apply Hall; unfold required_symbols; set_solver).
      cbn [exports partial_object] in Hin.
      repeat (apply elem_of_cons in Hin as [Hin|Hin]; [discriminate|]).
      now apply elem_of_nil in Hin.
    + exists missing. unfold function_z. now rewrite Heq.
  - destruct (function_loads_then_calls Z z_cast 0 z_layout
                z_dlerror z_dlsym_error
                {[ "./libstft.so"%string := complete_object ]}
                (PySeq [1; 2; 3]) 2 1 125 0
                "./libstft.so" empty_world) as (_ & _ & Hok).
    eexists. unfold function_z.
    rewrite (Hok complete_object (lookup_singleton_eq _ _)
               complete_object_exports).
    reflexivity.
Defined.

Lemma main_hands_over_its_own_array_witness :
  exists evs,
    trace (interp (main_z {[ "./libstft.so"%string := complete_object ]}
                          empty_world))
    = EvPerformStft 2%positive 250 (make_params 62 31 125 0) :: evs.
Proof.
  destruct (main_hands_over_its_own_array Z z_cast 0 z_layout Csv.fmt_bit
              z_dlerror z_dlsym_error z_sample z_sample 125
              {[ "./libstft.so"%string := complete_object ]}
              complete_object empty_world (lookup_singleton_eq _ _)
              complete_object_exports eq_refl)
    as (_ & _ & _ & _ & evs & Hevs).
  exists evs. exact Hevs.
Defined.

End Script.
